(** * Botswana health dashboard: the cleaning, aggregation, trend and
      narrative pipeline of [app.py]

    A shallow embedding of the functions of [app.py] that carry the
    dashboard's business rules, and the properties its specification states
    about them.

    Data is modelled as the program has it:
    - a pandas [float64] / Python [float] is Rocq's primitive binary64
      [float]; comparisons are the IEEE ones ([=?], [<?]), so a NaN compares
      false with everything and [-0.0 == 0] holds;
    - a Python [int] (the year) is a [Z];
    - a Python [str] is a [string] of bytes (UTF-8);
    - [None] is [option]'s [None]; an exception is an explicit error result;
    - a data frame is the list of its rows, in row order. *)

From Stdlib Require Import ZArith List String Ascii Bool Lia.
From Stdlib Require Import Sorted.
From Stdlib Require Import Floats DecimalString.
Import ListNotations.

Local Open Scope string_scope.
Local Open Scope Z_scope.

(** ** Python values used throughout *)

Definition f0 : float := 0%float.
Definition f10 : float := 10%float.
Definition fm10 : float := (-10)%float.
Definition f100 : float := 100%float.

(** Python's [x == 0] and [x != 0] on a float. *)
Definition is_zero (x : float) : bool := PrimFloat.eqb x f0.

(** The [float64] of an integer, rounded to the nearest, ties to even. *)
Definition Z2float (z : Z) : float :=
  SF2Prim (binary_normalize prec emax z 0 false).

(** [int(f)]: truncation toward zero; an infinity or a NaN raises. *)
Definition float_to_int (f : float) : option Z :=
  match Prim2SF f with
  | S754_zero _ => Some 0
  | S754_finite s m e =>
      Some (cond_Zopp s (if 0 <=? e then Zpos m * 2 ^ e else Zpos m / 2 ^ (- e)))
  | S754_infinity _ | S754_nan => None
  end.

(** [int(row["year"])] for a row taken with [iloc] from a frame that has a
    [float64] column beside the [int64] year: the row holds the year as a
    [float64], and [int] reads that float back.  The year column is
    [int64], whose floats are finite, so [int] does not fail there; an
    integer beyond every float is left as it is. *)
Definition year_of_row (y : Z) : Z :=
  match float_to_int (Z2float y) with
  | Some z => z
  | None => y
  end.

(** ** Trend classifier *)

(** One row of [df_yearly]: a year and the mean value of that year. *)
Record yearly_point : Type := mkPoint {
  yp_year : Z;
  yp_value : float
}.

(** The dict [classify_trend] returns. *)
Record trend_info : Type := mkTrend {
  start_year : Z;
  end_year : Z;
  start_val : float;
  end_val : float;
  absolute_change : float;
  percent_change : option float;
  label : string
}.

(** [df.iloc[i]]: row [i], counted from the end when [i] is negative; an
    [IndexError] ([None]) when the position is outside the frame. *)
Definition iloc {A : Type} (l : list A) (i : Z) : option A :=
  let n := Z.of_nat (List.length l) in
  if 0 <=? i then nth_error l (Z.to_nat i)
  else if 0 <=? n + i then nth_error l (Z.to_nat (n + i))
  else None.

(** The threshold cascade of [classify_trend], lines 161-169. *)
Definition trend_label (percent_change : option float) : string :=
  match percent_change with
  | None => "uncertain"
  | Some pc =>
      if PrimFloat.ltb f10 pc then "increasing"
      else if PrimFloat.ltb pc fm10 then "decreasing"
      else "relatively stable"
  end.

(** [classify_trend], lines 141-179.  [int(first_row["year"])] reads the year
    back from the row, which holds it as a [float64]. *)
Definition classify_trend (df_yearly : list yearly_point) : option trend_info :=
  match iloc df_yearly 0, iloc df_yearly (-1) with
  | Some first_row, Some last_row =>
      let start_year := year_of_row (yp_year first_row) in
      let end_year := year_of_row (yp_year last_row) in
      let start_val := yp_value first_row in
      let end_val := yp_value last_row in
      let absolute_change := PrimFloat.sub end_val start_val in
      let percent_change :=
        if is_zero start_val then None
        else Some (PrimFloat.mul (PrimFloat.div absolute_change start_val) f100) in
      Some (mkTrend start_year end_year start_val end_val
                    absolute_change percent_change (trend_label percent_change))
  | _, _ => None
  end.

(** ** Text *)

(** [c.lower()] on one byte: the 26 capital letters move to small ones.  The
    bytes of a character outside ASCII are all above 127 and stay as they
    are.  Python lowers such characters too, to characters outside ASCII
    again, so the ASCII keywords looked up below occur in the one text
    exactly when they occur in the other. *)
Definition lower_ascii (c : ascii) : ascii :=
  let n := nat_of_ascii c in
  if (Nat.leb 65 n && Nat.leb n 90)%bool then ascii_of_nat (n + 32) else c.

(** [s.lower()]. *)
Fixpoint lower (s : string) : string :=
  match s with
  | EmptyString => EmptyString
  | String c tl => String (lower_ascii c) (lower tl)
  end.

(** [s.startswith(p)]. *)
Definition startswith (s p : string) : bool := String.prefix p s.

(** [sub in s]: [sub] occurs somewhere in [s]. *)
Fixpoint str_in (sub s : string) : bool :=
  if String.prefix sub s then true
  else match s with
       | EmptyString => false
       | String _ tl => str_in sub tl
       end.

(** [str(n)] for a Python [int]. *)
Definition str_int (n : Z) : string :=
  DecimalString.NilZero.string_of_int (Z.to_int n).

(** ** Indicator explainer *)

Definition text_child : string :=
  "This indicator tracks deaths among very young children. " ++
  "Higher values usually mean worse outcomes for child survival; " ++
  "falling trends are a positive sign.".

Definition text_adolescent : string :=
  "This indicator focuses on health outcomes among adolescents. " ++
  "Monitoring this helps understand risk, injuries, and access to care for young people.".

Definition text_maternal : string :=
  "This indicator relates to the health and survival of mothers during pregnancy, " ++
  "childbirth, and the postnatal period. Lower mortality is better.".

Definition text_hiv : string :=
  "This indicator describes HIV-related burden or services. " ++
  "Declining mortality or incidence is usually good; increasing coverage of treatment is positive.".

Definition text_tb : string :=
  "This indicator relates to tuberculosis burden or control. " ++
  "Higher mortality or incidence is concerning; declining trends suggest better TB control.".

Definition text_suicide : string :=
  "This indicator tracks deaths due to suicide. " ++
  "Rising values can signal growing mental health and social stress challenges.".

Definition text_generic : string :=
  "This indicator reflects a specific health outcome or service coverage in Botswana. " ++
  "Changes over time can signal improvements or emerging challenges in the health system.".

(** [describe_indicator], lines 96-138. *)
Definition describe_indicator (indicator_name : string) : string :=
  let name := lower indicator_name in
  if (str_in "infant" name || str_in "neonatal" name || str_in "under-five" name)%bool
  then text_child
  else if str_in "adolescent" name then text_adolescent
  else if str_in "maternal" name then text_maternal
  else if str_in "hiv" name then text_hiv
  else if (str_in "tb" name || str_in "tuberculosis" name)%bool then text_tb
  else if str_in "suicide" name then text_suicide
  else text_generic.

(** The explainer as its contract words it: six keyword groups in priority
    order, each with its paragraph; the first group with a keyword occurring
    in the name, letter case set aside, gives the text; the generic sentence
    is the fallback. *)
Definition keyword_groups : list (list string * string) :=
  [ (["infant"; "neonatal"; "under-five"], text_child);
    (["adolescent"], text_adolescent);
    (["maternal"], text_maternal);
    (["hiv"], text_hiv);
    (["tb"; "tuberculosis"], text_tb);
    (["suicide"], text_suicide) ].

Definition group_matches (name : string) (g : list string * string) : bool :=
  existsb (fun kw => str_in kw (lower name)) (fst g).

Definition explain_spec (indicator_name : string) : string :=
  match find (group_matches indicator_name) keyword_groups with
  | Some g => snd g
  | None => text_generic
  end.

(** ** Trend narrative *)

(** Python's number formatting, which the narrative and the metrics call:
    [str(round(x, 2))] and the format specs [.1f], [.2f], [+.2f], [+.1f]. *)
Record formatters : Type := mkFormatters {
  str_round2 : float -> string;
  fmt_1f : float -> string;
  fmt_2f : float -> string;
  fmt_plus_2f : float -> string;
  fmt_plus_1f : float -> string
}.

Section Narrative.
Variable fmt : formatters.

(** [make_trend_narrative], lines 182-225. *)
Definition make_trend_narrative (indicator_name : string) (trend_info : trend_info)
  : string :=
  let label := label trend_info in
  let start_year := start_year trend_info in
  let end_year := end_year trend_info in
  let start_val := start_val trend_info in
  let end_val := end_val trend_info in
  let pct := percent_change trend_info in
  let start_val_r := str_round2 fmt start_val in
  let end_val_r := str_round2 fmt end_val in
  let pct_txt :=
    match pct with
    | None => "an uncertain percentage change (starting value was zero)"
    | Some pct => "about " ++ fmt_1f fmt pct ++ "%"
    end in
  if String.eqb label "increasing" then
    "Between " ++ str_int start_year ++ " and " ++ str_int end_year ++
    ", this indicator increased " ++
    "from " ++ start_val_r ++ " to " ++ end_val_r ++ ", a change of " ++ pct_txt ++ ". " ++
    "This suggests a worsening of the measured burden if higher values are harmful, " ++
    "or improvement if the indicator tracks coverage or access."
  else if String.eqb label "decreasing" then
    "Between " ++ str_int start_year ++ " and " ++ str_int end_year ++
    ", this indicator decreased " ++
    "from " ++ start_val_r ++ " to " ++ end_val_r ++ ", a change of " ++ pct_txt ++ ". " ++
    "For outcomes where high values are harmful (like deaths or mortality), " ++
    "this pattern is generally positive."
  else if String.eqb label "relatively stable" then
    "From " ++ str_int start_year ++ " to " ++ str_int end_year ++
    ", this indicator stayed relatively stable " ++
    "around " ++ end_val_r ++ ", with " ++ pct_txt ++ " change overall. " ++
    "This may mean that major shifts in this health area have not yet occurred."
  else
    "From " ++ str_int start_year ++ " to " ++ str_int end_year ++
    ", this indicator changed from " ++ start_val_r ++ " to " ++ end_val_r ++ ". " ++
    "More detailed context is needed to interpret whether this is good or bad for Botswana.".
End Narrative.

(** ** Loader and cleaner *)

(** One cell of the raw frame, as [pandas.read_csv] leaves it: missing, a
    number, or text. *)
Inductive cell : Type :=
| NA
| CInt (z : Z)
| CFloat (f : float)
| CStr (s : string).

(** One row of the raw frame, with the columns the cleaner reads; a cell of
    the two dimension columns is a text or is missing. *)
Record raw_row : Type := mkRaw {
  raw_year_display : cell;           (* "YEAR (DISPLAY)" *)
  raw_gho_code : cell;               (* "GHO (CODE)" *)
  raw_gho_display : string;          (* "GHO (DISPLAY)" *)
  raw_numeric : cell;                (* "Numeric" *)
  raw_country : string;              (* "COUNTRY (DISPLAY)" *)
  raw_dimension_type : option string;  (* "DIMENSION (TYPE)" *)
  raw_dimension_name : option string   (* "DIMENSION (NAME)" *)
}.

(** One row of the cleaned frame. *)
Record observation : Type := mkObs {
  gho_code : cell;
  gho_display : string;
  year : Z;
  value : float;
  country : string;
  dimension_type : option string;
  dimension_name : option string;
  breakdown : string
}.

(** Exceptions that leave the modelled functions. *)
Inductive exn : Type :=
| ValueError (column : string)
| IndexError
| TypeError.

Inductive result (A : Type) : Type :=
| Ok (a : A)
| Raise (e : exn).
Arguments Ok {A} a.
Arguments Raise {A} e.

(** [str(c).startswith("#")]: only text can start with '#'; the text of a
    number or of a missing cell ("nan") does not. *)
Definition starts_with_hash (c : cell) : bool :=
  match c with
  | CStr s => startswith s "#"
  | _ => false
  end.

(** What [dropna] counts as missing. *)
Definition isna (c : cell) : bool :=
  match c with
  | NA => true
  | CFloat f => PrimFloat.is_nan f
  | _ => false
  end.

(** [series.fillna(default)] on one cell. *)
Definition fillna (default : string) (c : option string) : string :=
  match c with
  | Some s => s
  | None => default
  end.

(** [series.astype(t)]: every cell converts, or the call raises. *)
Fixpoint astype {A : Type} (conv : cell -> option A) (col : list cell)
  : option (list A) :=
  match col with
  | [] => Some []
  | c :: tl =>
      match conv c, astype conv tl with
      | Some a, Some l => Some (a :: l)
      | _, _ => None
      end
  end.

Definition separator : string := " – ".

(** The dtype of a column of texts as [read_csv] leaves it: [object] when
    the column holds a text or the frame has no row, [float64], all NaN,
    otherwise. *)
Definition text_column (col : list (option string)) : bool :=
  match col with
  | [] => true
  | _ :: _ =>
      existsb (fun c => match c with Some _ => true | None => false end) col
  end.

Definition make_observation (r : raw_row) (y : Z) (v : float) : observation :=
  let dim_type := fillna "None" (raw_dimension_type r) in
  let dim_name := fillna "All" (raw_dimension_name r) in
  mkObs (raw_gho_code r) (raw_gho_display r) y v (raw_country r)
        (raw_dimension_type r) (raw_dimension_name r)
        (dim_type ++ separator ++ dim_name).

Section Cleaner.
(** pandas' conversion of one cell to [int] and to [float]; [None] when
    the conversion raises. *)
Variable to_int : cell -> option Z.
Variable to_float : cell -> option float.

(** [clean_who_botswana], lines 18-55.  Line 53 adds the separator to the
    filled type column: with a row left, [fillna] has made the column one of
    texts; with no row left the column keeps its dtype, and adding a text to
    a [float64] column raises a [TypeError]. *)
Definition clean_who_botswana (df_raw : list raw_row) : result (list observation) :=
  let df := filter (fun r => negb (starts_with_hash (raw_year_display r))) df_raw in
  let df := filter (fun r => negb (starts_with_hash (raw_gho_code r))) df in
  let df := filter (fun r => negb (isna (raw_numeric r))) df in
  match astype to_int (map raw_year_display df) with
  | None => Raise (ValueError "YEAR (DISPLAY)")
  | Some years =>
      match astype to_float (map raw_numeric df) with
      | None => Raise (ValueError "Numeric")
      | Some values =>
          match df with
          | [] =>
              if text_column (map raw_dimension_type df_raw)
              then Ok []
              else Raise TypeError
          | _ :: _ =>
              Ok (map (fun '(r, (y, v)) => make_observation r y v)
                      (combine df (combine years values)))
          end
      end
  end.
End Cleaner.

(** ** Filter and aggregator (the main script, lines 309-322) *)

(** The first entry of the breakdown select box: no breakdown filter. *)
Definition ALL_BREAKDOWNS : string := "All breakdowns (average)".

(** Lines 310-314. *)
Definition apply_filters (df : list observation)
    (selected_indicator selected_breakdown : string) (year_range : Z * Z)
  : list observation :=
  let df_ind := filter (fun o => String.eqb (gho_display o) selected_indicator) df in
  let df_ind :=
    filter (fun o => (fst year_range <=? year o) && (year o <=? snd year_range))%bool
           df_ind in
  if negb (String.eqb selected_breakdown ALL_BREAKDOWNS)
  then filter (fun o => String.eqb (breakdown o) selected_breakdown) df_ind
  else df_ind.

(** [groupby("year")]: one group per year, keys ascending, the members of a
    group in row order. *)
Fixpoint group_add (y : Z) (v : float) (groups : list (Z * list float))
  : list (Z * list float) :=
  match groups with
  | [] => [(y, [v])]
  | (k, vs) :: rest =>
      if y <? k then (y, [v]) :: groups
      else if y =? k then (k, (vs ++ [v])%list) :: rest
      else (k, vs) :: group_add y v rest
  end.

Definition groupby_year (df : list observation) : list (Z * list float) :=
  fold_left (fun groups o => group_add (year o) (value o) groups) df [].

(** [sort_values("year")]. *)
Fixpoint insert_by_year (p : yearly_point) (l : list yearly_point)
  : list yearly_point :=
  match l with
  | [] => [p]
  | q :: tl => if yp_year p <=? yp_year q then p :: l else q :: insert_by_year p tl
  end.

Definition sort_values_year (l : list yearly_point) : list yearly_point :=
  fold_right insert_by_year [] l.

(** pandas' mean of one group of a [float64] column, which line 320 calls
    ([group_mean] of pandas' [groupby]): the values that are not NaN are
    counted and added up with a running compensation for the rounding of
    each addition, a compensation that is a NaN being put back to zero; the
    mean is the sum over the count, and a NaN when nothing was counted.  The
    count is kept here as a float, which is exact for the lengths a frame
    can have. *)
Definition mean_step (acc : float * float * float) (val : float)
  : float * float * float :=
  let '(sumx, compensation, nobs) := acc in
  if PrimFloat.is_nan val then acc
  else
    let y := PrimFloat.sub val compensation in
    let t := PrimFloat.add sumx y in
    let c := PrimFloat.sub (PrimFloat.sub t sumx) y in
    let c := if PrimFloat.is_nan c then f0 else c in
    (t, c, PrimFloat.add nobs 1%float).

Definition group_mean (values : list float) : float :=
  let '(sumx, _, nobs) := fold_left mean_step values (f0, f0, f0) in
  if is_zero nobs then PrimFloat.nan else PrimFloat.div sumx nobs.

Section Aggregator.
(** The reduction of the values of one group; the script uses [group_mean]. *)
Variable mean : list float -> float.

(** Lines 317-322. *)
Definition aggregate (df_ind : list observation) : list yearly_point :=
  sort_values_year
    (map (fun g => mkPoint (fst g) (mean (snd g))) (groupby_year df_ind)).

Definition df_yearly (df : list observation)
    (selected_indicator selected_breakdown : string) (year_range : Z * Z)
  : list yearly_point :=
  aggregate (apply_filters df selected_indicator selected_breakdown year_range).
End Aggregator.

(** The values of the rows of year [y], in row order. *)
Definition values_of_year (y : Z) (rows : list observation) : list float :=
  map value (filter (fun o => year o =? y) rows).

(** The filtering predicate as the contract words it. *)
Definition selected (selected_indicator selected_breakdown : string)
    (year_range : Z * Z) (o : observation) : Prop :=
  gho_display o = selected_indicator /\
  fst year_range <= year o <= snd year_range /\
  (selected_breakdown = ALL_BREAKDOWNS \/ breakdown o = selected_breakdown).

(** ** Summary metrics (lines 340-353) *)

(** The four metrics of the first tab; a change is a float or [None]. *)
Record kpi : Type := mkKpi {
  latest_year : Z;
  latest_value : float;
  change_abs : option float;
  change_pct : option float
}.

Definition kpis (df_yearly : list yearly_point) : option kpi :=
  match iloc df_yearly (-1) with
  | None => None
  | Some latest_row =>
      let latest_year := year_of_row (yp_year latest_row) in
      let latest_value := yp_value latest_row in
      if (1 <? List.length df_yearly)%nat then
        match iloc df_yearly (-2) with
        | None => None
        | Some prev_row =>
            let change_abs := PrimFloat.sub latest_value (yp_value prev_row) in
            let change_pct :=
              if negb (is_zero (yp_value prev_row))
              then Some (PrimFloat.mul (PrimFloat.div change_abs (yp_value prev_row)) f100)
              else None in
            Some (mkKpi latest_year latest_value (Some change_abs) change_pct)
        end
      else Some (mkKpi latest_year latest_value (Some f0) None)
  end.

(** ** The main script from the filters to the first tab (lines 309-394) *)

(** What the script puts on the page. *)
Inductive ui_event : Type :=
| st_warning (msg : string)
| st_subheader (text : string)
| st_metric (name value : string)
| st_markdown (text : string)
| st_write (text : string)
| st_plotly_chart (title : string) (points : list yearly_point)
| st_dataframe (points : list yearly_point).

(** The page so far and the two script variables the trend stage assigns. *)
Record app_state : Type := mkApp {
  page : list ui_event;
  var_trend_info : option trend_info;
  var_narrative : option string
}.

Definition fresh : app_state := mkApp [] None None.

(** A run ends normally, by [st.stop()], or by an exception. *)
Inductive outcome (A : Type) : Type :=
| Done (a : A)
| Stopped
| Raised (e : exn).
Arguments Done {A} a.
Arguments Stopped {A}.
Arguments Raised {A} e.

Definition script (A : Type) : Type := app_state -> app_state * outcome A.

Definition ret {A : Type} (a : A) : script A := fun s => (s, Done a).

Definition bind {A B : Type} (m : script A) (k : A -> script B) : script B :=
  fun s =>
    match m s with
    | (s', Done a) => k a s'
    | (s', Stopped) => (s', Stopped)
    | (s', Raised e) => (s', Raised e)
    end.

Notation "x <- m ;; k" := (bind m (fun x => k))
  (at level 61, m at next level, right associativity).
Notation "m ;;; k" := (bind m (fun _ => k))
  (at level 61, right associativity).

Definition emit (e : ui_event) : script unit :=
  fun s => (mkApp (page s ++ [e])%list (var_trend_info s) (var_narrative s), Done tt).

Definition st_stop {A : Type} : script A := fun s => (s, Stopped).

Definition or_raise {A : Type} (e : exn) (o : option A) : script A :=
  fun s => match o with
           | Some a => (s, Done a)
           | None => (s, Raised e)
           end.

Definition assign_trend_info (t : trend_info) : script unit :=
  fun s => (mkApp (page s) (Some t) (var_narrative s), Done tt).

Definition assign_narrative (n : string) : script unit :=
  fun s => (mkApp (page s) (var_trend_info s) (Some n), Done tt).

Definition NO_DATA : string :=
  "No data available for this combination of indicator, breakdown, and years.".

Section Script.
Variable fmt : formatters.
Variable mean : list float -> float.

Definition show_selection (df : list observation)
    (selected_indicator selected_breakdown : string) (year_range : Z * Z)
  : script unit :=
  let df_yearly := df_yearly mean df selected_indicator selected_breakdown year_range in
  (match df_yearly with
   | [] => emit (st_warning NO_DATA) ;;; st_stop
   | _ :: _ => ret tt
   end) ;;;
  trend_info <- or_raise IndexError (classify_trend df_yearly) ;;
  assign_trend_info trend_info ;;;
  let narrative := make_trend_narrative fmt selected_indicator trend_info in
  assign_narrative narrative ;;;
  let indicator_explainer := describe_indicator selected_indicator in
  emit (st_subheader selected_indicator) ;;;
  k <- or_raise IndexError (kpis df_yearly) ;;
  emit (st_metric "Latest year" (str_int (latest_year k))) ;;;
  emit (st_metric "Latest value" (fmt_2f fmt (latest_value k))) ;;;
  change <- or_raise TypeError (change_abs k) ;;
  emit (st_metric "Change vs previous year" (fmt_plus_2f fmt change)) ;;;
  emit (st_metric "Percent change vs prev."
          match change_pct k with
          | None => "n/a"
          | Some pct => fmt_plus_1f fmt pct ++ "%"
          end) ;;;
  emit (st_markdown "### 🩺 How to read this indicator") ;;;
  emit (st_write indicator_explainer) ;;;
  emit (st_markdown "### 🇧🇼 Botswana trend summary") ;;;
  emit (st_write narrative) ;;;
  emit (st_plotly_chart (selected_indicator ++ " – Botswana") df_yearly) ;;;
  emit (st_markdown "#### Data table") ;;;
  emit (st_dataframe df_yearly).
End Script.

(** ** Conversions used in the worked examples

    The cleaner is stated for any conversion of a cell.  The examples run it
    with the conversions below, which follow pandas on numbers and on text
    that is a plain decimal literal (a sign, digits, and for a float a point
    and more digits, up to 15 significant digits).  They read no other text:
    not the exponent form, blanks around a number or underscores between
    digits, which Python reads as well and which no example uses. *)

Definition digit_value (c : ascii) : option Z :=
  let n := Z.of_nat (nat_of_ascii c) in
  if ((48 <=? n) && (n <=? 57))%bool then Some (n - 48) else None.

(** Reads the digits [s] starts with: their value after [acc], how many
    there were, and the rest of [s]. *)
Fixpoint read_digits (s : string) (acc : Z) (count : nat) : Z * nat * string :=
  match s with
  | EmptyString => (acc, count, s)
  | String c tl =>
      match digit_value c with
      | Some d => read_digits tl (10 * acc + d) (S count)
      | None => (acc, count, s)
      end
  end.

Definition split_sign (s : string) : bool * string :=
  match s with
  | String "-" tl => (true, tl)
  | String "+" tl => (false, tl)
  | _ => (false, s)
  end.

Definition decimal_int (s : string) : option Z :=
  let '(neg, body) := split_sign s in
  match read_digits body 0 0 with
  | (n, S _, EmptyString) => Some (if neg then - n else n)
  | _ => None
  end.

Definition decimal_float (s : string) : option float :=
  let '(neg, body) := split_sign s in
  let sign := fun x : float => if neg then PrimFloat.opp x else x in
  match read_digits body 0 0 with
  | (n, S _, EmptyString) => Some (sign (Z2float n))
  | (n, c1, String "." frac) =>
      match read_digits frac n 0 with
      | (m, c2, EmptyString) =>
          match (c1 + c2)%nat with
          | O => None
          | S _ => Some (sign (PrimFloat.div (Z2float m) (Z2float (10 ^ Z.of_nat c2))))
          end
      | _ => None
      end
  | _ => None
  end.

Definition plain_to_int (c : cell) : option Z :=
  match c with
  | NA => None
  | CInt z => Some z
  | CFloat f => float_to_int f
  | CStr s => decimal_int s
  end.

Definition plain_to_float (c : cell) : option float :=
  match c with
  | NA => Some PrimFloat.nan
  | CInt z => Some (Z2float z)
  | CFloat f => Some f
  | CStr s => decimal_float s
  end.

(** ** Notions used to state the properties *)


(** The rows the three filters of the cleaner let through. *)
Definition kept_rows (df_raw : list raw_row) : list raw_row :=
  filter (fun r => negb (starts_with_hash (raw_year_display r))
                   && negb (starts_with_hash (raw_gho_code r))
                   && negb (isna (raw_numeric r)))%bool df_raw.

(** The cleaned row of one raw row, when both of its conversions succeed. *)
Definition convert_row (to_int : cell -> option Z) (to_float : cell -> option float)
    (r : raw_row) : option observation :=
  match to_int (raw_year_display r), to_float (raw_numeric r) with
  | Some y, Some v => Some (make_observation r y v)
  | _, _ => None
  end.

(** Rows of the raw extract for the examples: a good row, a row whose
    numeric field is text that is no number, a row without a numeric value
    and the metadata row under the header. *)
Definition row_ok : raw_row :=
  mkRaw (CStr "2015") (CStr "MDG_0000000007") "Under-five mortality rate"
        (CStr "40.0") "Botswana" (Some "SEX") (Some "Both sexes").

Definition row_unparseable : raw_row :=
  mkRaw (CStr "2016") (CStr "MDG_0000000007") "Under-five mortality rate"
        (CStr "<0.1") "Botswana" None None.

Definition row_no_value : raw_row :=
  mkRaw (CStr "2017") (CStr "MDG_0000000007") "Under-five mortality rate"
        NA "Botswana" (Some "SEX") None.

Definition row_metadata : raw_row :=
  mkRaw (CStr "#date+year") (CStr "#indicator+code") "#indicator+name"
        (CStr "#indicator+value+num") "#country+name" (Some "#meta") None.

(** The filtering predicate as a test on one row. *)
Definition selectedb (selected_indicator selected_breakdown : string)
    (year_range : Z * Z) (o : observation) : bool :=
  (String.eqb (gho_display o) selected_indicator
   && ((fst year_range <=? year o) && (year o <=? snd year_range))
   && (String.eqb selected_breakdown ALL_BREAKDOWNS
       || String.eqb (breakdown o) selected_breakdown))%bool.

(** The values of the group of year [k], if there is one. *)
Fixpoint group_get (k : Z) (groups : list (Z * list float)) : option (list float) :=
  match groups with
  | [] => None
  | (k', vs) :: rest => if k =? k' then Some vs else group_get k rest
  end.

Definition nonempty_opt (vs : list float) : option (list float) :=
  match vs with
  | [] => None
  | _ :: _ => Some vs
  end.

(** The groups built from the rows seen so far: keys ascending, and under
    each key the values of the rows of that year, in row order. *)
Definition groups_of (g : list (Z * list float)) (seen : list observation) : Prop :=
  StronglySorted Z.lt (map fst g) /\
  forall k, group_get k g = nonempty_opt (values_of_year k seen).

(** Three cleaned rows for the examples: two breakdowns of one year and an
    earlier year. *)
Definition obs_2015_f : observation :=
  mkObs (CStr "MDG_0000000007") "Under-five mortality rate" 2015 10%float "Botswana"
        (Some "SEX") (Some "Female") "SEX – Female".

Definition obs_2015_m : observation :=
  mkObs (CStr "MDG_0000000007") "Under-five mortality rate" 2015 20%float "Botswana"
        (Some "SEX") (Some "Male") "SEX – Male".

Definition obs_2010 : observation :=
  mkObs (CStr "MDG_0000000007") "Under-five mortality rate" 2010 40%float "Botswana"
        (Some "SEX") (Some "Female") "SEX – Female".

(** ** Loading the data (lines 58-70 and 238-240) *)

(** What the loader puts on the page. *)
Inductive load_event : Type :=
| st_error (msg : string).

Definition DATA_PATH : string := "data/health_indicators_bwa.csv".

Definition NO_VALID_ROWS : string :=
  "Data file loaded, but no valid rows after cleaning.".

Section Loader.
(** [pd.read_csv]: the raw frame, or the text of the exception it raised. *)
Variable read_csv : string -> string + list raw_row.
Variable to_int : cell -> option Z.
Variable to_float : cell -> option float.

(** [load_data], lines 58-70.  Only the read sits in the [try]; the empty
    frame [pd.DataFrame()] is the frame without rows. *)
Definition load_data (path : string) : list load_event * result (list observation) :=
  match read_csv path with
  | inl e =>
      ([st_error ("Could not read data file at '" ++ path ++ "': " ++ e)], Ok [])
  | inr raw =>
      match clean_who_botswana to_int to_float raw with
      | Raise x => ([], Raise x)
      | Ok df =>
          match df with
          | [] => ([st_error NO_VALID_ROWS], Ok df)
          | _ :: _ => ([], Ok df)
          end
      end
  end.

(** Lines 238-240: load, and stop when nothing was loaded. *)
Definition startup : list load_event * outcome (list observation) :=
  match load_data DATA_PATH with
  | (events, Raise x) => (events, Raised x)
  | (events, Ok df) =>
      match df with
      | [] => (events, Stopped)
      | _ :: _ => (events, Done df)
      end
  end.
End Loader.

(** ** Sidebar (lines 243-307) *)

(** A value kept in [st.session_state]: the text of a select box, the pair
    of a range slider, or anything else. *)
Inductive ss_value : Type :=
| SStr (s : string)
| SRange (r : Z * Z)
| SOther.

(** [st.session_state], a dict: a key occurs once at most; lookups take the
    first entry. *)
Definition session_state : Type := list (string * ss_value).

Fixpoint ss_get (k : string) (ss : session_state) : option ss_value :=
  match ss with
  | [] => None
  | (k', v) :: rest => if String.eqb k k' then Some v else ss_get k rest
  end.

(** [if k in ss: del ss[k]]. *)
Definition ss_del (k : string) (ss : session_state) : session_state :=
  filter (fun kv => negb (String.eqb k (fst kv))) ss.

(** The reset button, lines 247-254, up to [st.rerun()]. *)
Definition reset_filters (ss : session_state) : session_state :=
  let ss := ss_del "indicator" ss in
  let ss := ss_del "breakdown" ss in
  ss_del "year_range" ss.

(** [series.unique()]: the values in the order of their first occurrence. *)
Fixpoint unique (l : list string) : list string :=
  match l with
  | [] => []
  | x :: tl => x :: filter (fun y => negb (String.eqb x y)) (unique tl)
  end.

(** [sorted(...)] on texts: ascending by code point, which on UTF-8 is
    ascending by byte. *)
Fixpoint insert_sorted (x : string) (l : list string) : list string :=
  match l with
  | [] => [x]
  | y :: tl => if String.leb x y then x :: l else y :: insert_sorted x tl
  end.

Definition py_sorted (l : list string) : list string :=
  fold_right insert_sorted [] l.

(** Line 257. *)
Definition indicator_names (df : list observation) : list string :=
  py_sorted (unique (map gho_display df)).

(** Line 266. *)
Definition df_ind_all (df : list observation) (selected_indicator : string)
  : list observation :=
  filter (fun o => String.eqb (gho_display o) selected_indicator) df.

(** Lines 269-270. *)
Definition breakdown_options (df : list observation) (selected_indicator : string)
  : list string :=
  py_sorted (unique (map breakdown (df_ind_all df selected_indicator))).

Definition breakdown_options_display (df : list observation)
    (selected_indicator : string) : list string :=
  ALL_BREAKDOWNS :: breakdown_options df selected_indicator.

(** [x in l] for a list of texts. *)
Definition str_mem (x : string) (l : list string) : bool :=
  existsb (String.eqb x) l.

(** [l.index(x)]: the first position of [x]; a [ValueError] ([None]) when
    [x] is not in [l]. *)
Fixpoint list_index (x : string) (l : list string) : option nat :=
  match l with
  | [] => None
  | y :: tl =>
      if String.eqb x y then Some O
      else option_map S (list_index x tl)
  end.

(** Lines 273-276.  A stored value that is no text is in no list of
    texts. *)
Definition default_breakdown_index (ss : session_state) (options : list string)
  : result nat :=
  match ss_get "breakdown" ss with
  | Some (SStr v) =>
      if str_mem v options then
        match list_index v options with
        | Some i => Ok i
        | None => Raise (ValueError "index")
        end
      else Ok O
  | _ => Ok O
  end.

(** [series.min()] and [series.max()] of a column of integers; [None] on an
    empty column, where pandas gives a NaN. *)
Fixpoint series_min (l : list Z) : option Z :=
  match l with
  | [] => None
  | x :: tl =>
      match series_min tl with
      | None => Some x
      | Some m => Some (Z.min x m)
      end
  end.

Fixpoint series_max (l : list Z) : option Z :=
  match l with
  | [] => None
  | x :: tl =>
      match series_max tl with
      | None => Some x
      | Some m => Some (Z.max x m)
      end
  end.

(** Lines 286-287: [int(...)] of a NaN raises a [ValueError]. *)
Definition year_bounds (df : list observation) (selected_indicator : string)
  : result (Z * Z) :=
  let years := map year (df_ind_all df selected_indicator) in
  match series_min years with
  | None => Raise (ValueError "min_year")
  | Some min_year =>
      match series_max years with
      | None => Raise (ValueError "max_year")
      | Some max_year => Ok (min_year, max_year)
      end
  end.

(** Lines 294-299: the value handed to the slider.  The range stored by the
    slider is a pair of integers; another stored value fails in [int] or in
    the subscript. *)
Definition slider_default (min_year max_year : Z) (ss : session_state)
  : result (Z * Z) :=
  match ss_get "year_range" ss with
  | None => Ok (min_year, max_year)
  | Some (SRange yr_default) =>
      let yr_start := Z.max min_year (fst yr_default) in
      let yr_end := Z.min max_year (snd yr_default) in
      Ok (yr_start, yr_end)
  | Some _ => Raise TypeError
  end.

(** ** Search interest (lines 73-93 and 396-429) *)

(** A frame of search interest: the dates of its index and its columns,
    each a label and its values. *)
Record trends_frame (V : Type) : Type := mkTrends {
  tf_index : list string;
  tf_columns : list (string * list V)
}.
Arguments mkTrends {V} _ _.
Arguments tf_index {V} _.
Arguments tf_columns {V} _.

(** [df.empty]: an axis of length 0. *)
Definition frame_empty {V : Type} (f : trends_frame V) : bool :=
  match tf_index f, tf_columns f with
  | _ :: _, _ :: _ => false
  | _, _ => true
  end.

(** [pd.DataFrame()]. *)
Definition empty_frame {V : Type} : trends_frame V := mkTrends [] [].

(** [df.drop(columns=[name])]. *)
Definition drop_column {V : Type} (name : string) (f : trends_frame V)
  : trends_frame V :=
  mkTrends (tf_index f)
           (filter (fun col => negb (String.eqb name (fst col))) (tf_columns f)).

(** What the second tab puts on the page. *)
Inductive trends_event (V : Type) : Type :=
| tr_subheader (text : string)
| tr_write (text : string)
| tr_warning (msg : string)
| tr_info (msg : string)
| tr_plotly_chart (title value_col : string) (f : trends_frame V)
| tr_dataframe (f : trends_frame V).
Arguments tr_subheader {V} text.
Arguments tr_write {V} text.
Arguments tr_warning {V} msg.
Arguments tr_info {V} msg.
Arguments tr_plotly_chart {V} title value_col f.
Arguments tr_dataframe {V} f.

(** [s.split(sep)[0]] for a separator of one ASCII character: the text
    before its first occurrence, all of [s] when there is none. *)
Fixpoint before (s : string) (sep : ascii) : string :=
  match s with
  | EmptyString => EmptyString
  | String c tl => if Ascii.eqb c sep then EmptyString else String c (before tl sep)
  end.

(** A byte that continues a character of several bytes in UTF-8. *)
Definition is_continuation (c : ascii) : bool :=
  let n := nat_of_ascii c in (Nat.leb 128 n && Nat.ltb n 192)%bool.

(** [s[:n]]: the first [n] characters, each with all of its bytes. *)
Fixpoint take_chars (n : nat) (s : string) : string :=
  match s with
  | EmptyString => EmptyString
  | String c tl =>
      if is_continuation c then String c (take_chars n tl)
      else match n with
           | O => EmptyString
           | S n' => String c (take_chars n' tl)
           end
  end.

(** [len(s)]: the number of characters. *)
Fixpoint char_count (s : string) : nat :=
  match s with
  | EmptyString => O
  | String c tl => if is_continuation c then char_count tl else S (char_count tl)
  end.

(** Lines 400-401. *)
Definition search_keyword (selected_indicator : string) : string :=
  let keyword := before (before selected_indicator ",") "(" in
  take_chars 80 keyword.

Section Trends.
Variable V : Type.
(** The three calls on pytrends, [TrendReq], [build_payload] and
    [interest_over_time], for a keyword, a region and a time frame: the
    frame, or the text of the exception one of them raised. *)
Variable interest_over_time : string -> string -> string -> string + trends_frame V.

(** [get_google_trends], lines 73-93. *)
Definition get_google_trends (keyword geo timeframe : string)
  : list (trends_event V) * trends_frame V :=
  match interest_over_time keyword geo timeframe with
  | inr trends_df =>
      if frame_empty trends_df then ([], trends_df)
      else if str_mem "isPartial" (map fst (tf_columns trends_df))
      then ([], drop_column "isPartial" trends_df)
      else ([], trends_df)
  | inl e =>
      ([tr_warning ("Could not load Google Trends data for '" ++ keyword ++ "': " ++ e)],
       empty_frame)
  end.

(** The second tab, lines 396-429. *)
Definition show_trends (selected_indicator : string)
  : list (trends_event V) * result unit :=
  let keyword := search_keyword selected_indicator in
  let '(warnings, trends_df) :=
    get_google_trends (keyword ++ " Botswana") "BW" "2018-01-01 2025-12-31" in
  let head :=
    ([tr_subheader "Google Search Interest in Related Topic (Botswana)";
      tr_write ("Using keyword for Google Trends: **" ++ keyword ++ " Botswana**")]
     ++ warnings)%list in
  if frame_empty trends_df then
    ((head ++ [tr_info "No Google Trends data returned for this topic / timeframe."])%list,
     Ok tt)
  else
    match tf_columns trends_df with
    | [] => (head, Raise IndexError)
    | (value_col, _) :: _ =>
        ((head ++
          [tr_plotly_chart
             ("Google Search Interest over time – '" ++ keyword ++ " Botswana'")
             value_col trends_df;
           tr_dataframe trends_df])%list,
         Ok tt)
    end.
End Trends.

(** ** Further notions used to state the properties *)

(** The byte [c] occurs in [s]. *)
Fixpoint has_byte (c : ascii) (s : string) : bool :=
  match s with
  | EmptyString => false
  | String a tl => (Ascii.eqb a c || has_byte c tl)%bool
  end.

(** Whether line 53 goes through: with a kept row always, with none only on
    a type column of texts. *)
Definition breakdown_column_ok (df_raw : list raw_row) : bool :=
  match kept_rows df_raw with
  | [] => text_column (map raw_dimension_type df_raw)
  | _ :: _ => true
  end.

(** The breakdown label of a raw row. *)
Definition breakdown_of_raw (r : raw_row) : string :=
  match raw_dimension_type r with Some t => t | None => "None" end
  ++ " – " ++
  match raw_dimension_name r with Some n => n | None => "All" end.




Definition row_no_type : raw_row :=
  mkRaw (CStr "2016") (CStr "MDG_0000000007") "Under-five mortality rate"
        (CStr "41.5") "Botswana" None (Some "Both sexes").

Definition row_no_name : raw_row :=
  mkRaw (CStr "2017") (CStr "MDG_0000000007") "Under-five mortality rate"
        (CStr "42") "Botswana" (Some "SEX") None.

(** * Properties *)

(** ** Binary64 facts used by the classifier *)

Lemma SFcompare_antisym (x y : spec_float) :
  SFcompare y x = option_map CompOpp (SFcompare x y).
Proof.
  destruct x as [sx|sx| |sx mx ex], y as [sy|sy| |sy my ey]; simpl;
    try reflexivity;
    try (destruct sx; reflexivity);
    try (destruct sy; reflexivity);
    try (destruct sx, sy; reflexivity).
  destruct sx, sy; simpl; try reflexivity;
    rewrite (Z.compare_antisym ex ey);
    destruct (ex ?= ey) eqn:E; simpl; try reflexivity;
    rewrite (Pos.compare_cont_antisym mx my Eq); simpl;
    try rewrite CompOpp_involutive; reflexivity.
Qed.

Lemma leb_ltb_false (x y : float) :
  PrimFloat.leb x y = true -> PrimFloat.ltb y x = false.
Proof.
  rewrite leb_spec, ltb_spec. unfold SFleb, SFltb.
  rewrite (SFcompare_antisym (Prim2SF x) (Prim2SF y)).
  destruct (SFcompare (Prim2SF x) (Prim2SF y)) as [[ | | ]|]; simpl; congruence.
Qed.

Lemma eqb_ltb_false (x y : float) :
  PrimFloat.eqb x y = true -> PrimFloat.ltb x y = false /\ PrimFloat.ltb y x = false.
Proof.
  rewrite eqb_spec, !ltb_spec. unfold SFeqb, SFltb.
  rewrite (SFcompare_antisym (Prim2SF x) (Prim2SF y)).
  destruct (SFcompare (Prim2SF x) (Prim2SF y)) as [[ | | ]|]; simpl;
    intros H; try discriminate H; split; reflexivity.
Qed.





(** Nothing is both below -10 and above 10. *)
Lemma below_not_above (pc : float) :
  PrimFloat.ltb pc fm10 = true -> PrimFloat.ltb f10 pc = false.
Proof.
  rewrite !ltb_spec. unfold SFltb.
  change (Prim2SF fm10) with (S754_finite true 5629499534213120 (-49)).
  change (Prim2SF f10) with (S754_finite false 5629499534213120 (-49)).
  destruct (Prim2SF pc) as [s|s| |s m e]; try destruct s;
    cbv beta iota delta [SFcompare]; intros H;
    try discriminate H; reflexivity.
Qed.

(** Exactly 10 is not below -10, and exactly -10 is not above 10. *)
Lemma eq_plus10_not_below (pc : float) :
  PrimFloat.eqb pc f10 = true -> PrimFloat.ltb pc fm10 = false.
Proof.
  rewrite eqb_spec, ltb_spec. unfold SFeqb, SFltb.
  change (Prim2SF fm10) with (S754_finite true 5629499534213120 (-49)).
  change (Prim2SF f10) with (S754_finite false 5629499534213120 (-49)).
  destruct (Prim2SF pc) as [s|s| |s m e]; try destruct s;
    cbv beta iota delta [SFcompare]; intros H;
    try reflexivity; discriminate H.
Qed.

Lemma eq_minus10_not_above (pc : float) :
  PrimFloat.eqb pc fm10 = true -> PrimFloat.ltb f10 pc = false.
Proof.
  rewrite eqb_spec, ltb_spec. unfold SFeqb, SFltb.
  change (Prim2SF fm10) with (S754_finite true 5629499534213120 (-49)).
  change (Prim2SF f10) with (S754_finite false 5629499534213120 (-49)).
  destruct (Prim2SF pc) as [s|s| |s m e]; try destruct s;
    cbv beta iota delta [SFcompare]; intros H;
    try reflexivity; discriminate H.
Qed.

(** ** The year read back from a row *)

Lemma digits2_pos_iter (m d : positive) :
  Zpos (digits2_pos (Pos.iter xO m d)) = Zpos (digits2_pos m) + Zpos d.
Proof.
  revert m. induction d as [|d IH] using Pos.peano_ind; intros m.
  - simpl. lia.
  - rewrite Pos.iter_succ. simpl digits2_pos. rewrite Pos2Z.inj_succ, IH. lia.
Qed.

Lemma iter_xO_mul (m d : positive) :
  Zpos (Pos.iter xO m d) = Zpos m * 2 ^ Zpos d.
Proof.
  revert m. induction d as [|d IH] using Pos.peano_ind; intros m.
  - simpl. lia.
  - rewrite Pos.iter_succ, Pos2Z.inj_xO, IH, Pos2Z.inj_succ, Z.pow_succ_r; lia.
Qed.

Lemma digits2_pos_lower (m : positive) : 2 ^ (Zpos (digits2_pos m) - 1) <= Zpos m.
Proof.
  induction m as [m IH|m IH|]; simpl digits2_pos.
  - rewrite Pos2Z.inj_succ.
    replace (Z.succ (Zpos (digits2_pos m)) - 1)
      with (Z.succ (Zpos (digits2_pos m) - 1)) by lia.
    rewrite Z.pow_succ_r by lia. lia.
  - rewrite Pos2Z.inj_succ.
    replace (Z.succ (Zpos (digits2_pos m)) - 1)
      with (Z.succ (Zpos (digits2_pos m) - 1)) by lia.
    rewrite Z.pow_succ_r by lia. lia.
  - simpl. lia.
Qed.

Lemma digits2_pos_le_53 (m : positive) : Zpos m < 2 ^ 53 -> Zpos (digits2_pos m) <= 53.
Proof.
  intros H. pose proof (digits2_pos_lower m) as Hl.
  destruct (Z_le_gt_dec (Zpos (digits2_pos m)) 53) as [Hle|Hgt]; [exact Hle|].
  exfalso.
  assert (2 ^ 53 <= 2 ^ (Zpos (digits2_pos m) - 1)) by (apply Z.pow_le_mono_r; lia).
  lia.
Qed.

(** A mantissa of 53 bits with an exponent in range is not rounded. *)
Lemma binary_round_aux_exact (s : bool) (mz : positive) (ez : Z) :
  Zpos (digits2_pos mz) = 53 -> -1074 <= ez <= 971 ->
  binary_round_aux prec emax s (Zpos mz) ez loc_Exact = S754_finite s mz ez.
Proof.
  intros Hd He.
  assert (Hf : fexp prec emax (Zpos (digits2_pos mz) + ez) - ez = 0).
  { rewrite Hd. unfold fexp, emin, prec, emax. lia. }
  unfold binary_round_aux, shr_fexp. cbn [Zdigits2 shr_record_of_loc].
  rewrite Hf. cbn [shr shr_m loc_of_shr_record round_nearest_even Zdigits2].
  cbn [shr_record_of_loc]. rewrite Hf. cbn [shr shr_m].
  replace (ez <=? emax - prec) with true; [reflexivity|].
  symmetry. apply Z.leb_le. unfold emax, prec. lia.
Qed.

(** An integer under 2^53 is a float: its mantissa shifted to 53 bits. *)
Lemma binary_round_small (s : bool) (m : positive) :
  Zpos m < 2 ^ 53 ->
  exists mz ez,
    binary_round prec emax s m 0 = S754_finite s mz ez /\
    valid_binary (S754_finite s mz ez) = true /\
    ez <= 0 /\ Zpos mz = Zpos m * 2 ^ (- ez).
Proof.
  intros H. pose proof (digits2_pos_le_53 m H) as Hd.
  pose proof (Pos2Z.is_pos (digits2_pos m)) as Hp.
  unfold binary_round, shl_align.
  assert (Hf : fexp prec emax (Zpos (digits2_pos m) + 0) - 0
               = Zpos (digits2_pos m) - 53).
  { unfold fexp, emin, prec, emax. lia. }
  rewrite Hf.
  destruct (Zpos (digits2_pos m) - 53) as [|d|d] eqn:E.
  - exists m, 0. split; [apply binary_round_aux_exact; lia|].
    split.
    + unfold valid_binary, bounded, canonical_mantissa.
      replace (Zpos (digits2_pos m)) with 53 by lia. reflexivity.
    + split; [lia|]. simpl. lia.
  - lia.
  - assert (Hfe : fexp prec emax (Zpos (digits2_pos m) + 0) = Zneg d).
    { unfold fexp, emin, prec, emax. lia. }
    rewrite Hfe.
    assert (Hdig : Zpos (digits2_pos (Pos.iter xO m d)) = 53).
    { rewrite digits2_pos_iter. lia. }
    exists (Pos.iter xO m d), (Zneg d).
    split; [apply binary_round_aux_exact; [exact Hdig | lia]|].
    split.
    + unfold valid_binary, bounded, canonical_mantissa. rewrite Hdig.
      apply andb_true_iff. split.
      * apply Z.eqb_eq. unfold fexp, emin, prec, emax. lia.
      * apply Z.leb_le. unfold emax, prec. lia.
    + split; [lia|]. rewrite iter_xO_mul. reflexivity.
Qed.

Lemma float_to_int_Z2float (y : Z) :
  Z.abs y < 2 ^ 53 -> float_to_int (Z2float y) = Some y.
Proof.
  intros H. unfold Z2float, float_to_int.
  destruct y as [|m|m]; cbn [binary_normalize].
  - reflexivity.
  - destruct (binary_round_small false m H) as [mz [ez [E [Hv [He Hm]]]]].
    rewrite E, (Prim2SF_SF2Prim _ Hv). f_equal. cbn [cond_Zopp].
    destruct (0 <=? ez) eqn:E0.
    + apply Z.leb_le in E0. assert (ez = 0) as -> by lia. simpl in Hm. lia.
    + rewrite Hm. apply Z.div_mul. apply Z.pow_nonzero; lia.
  - destruct (binary_round_small true m H) as [mz [ez [E [Hv [He Hm]]]]].
    rewrite E, (Prim2SF_SF2Prim _ Hv). f_equal. cbn [cond_Zopp].
    destruct (0 <=? ez) eqn:E0.
    + apply Z.leb_le in E0. assert (ez = 0) as -> by lia. simpl in Hm. lia.
    + rewrite Hm, Z.div_mul by (apply Z.pow_nonzero; lia). reflexivity.
Qed.

(** A year under 2^53 in size comes back from its row as it is. *)
Lemma year_of_row_exact (y : Z) : Z.abs y < 2 ^ 53 -> year_of_row y = y.
Proof.
  intros H. unfold year_of_row. rewrite (float_to_int_Z2float y H). reflexivity.
Qed.

(** A larger one can come back rounded. *)
Example year_of_row_rounds :
  year_of_row 2015 = 2015 /\ year_of_row (2 ^ 53 + 1) = 2 ^ 53.
Proof. vm_compute. split; reflexivity. Qed.

(** ** Properties of the trend classifier *)

Lemma last_cons_default {A : Type} (l : list A) (a d d' : A) :
  last (a :: l) d = last (a :: l) d'.
Proof.
  revert a. induction l as [|b l IH]; intros a; [reflexivity|].
  change (last (b :: l) d = last (b :: l) d'). apply IH.
Qed.

Lemma nth_error_last {A : Type} (p : A) (ps : list A) :
  nth_error (p :: ps) (List.length ps) = Some (last ps p).
Proof.
  revert p. induction ps as [|q qs IH]; intros p; [reflexivity|].
  change (nth_error (q :: qs) (List.length qs) = Some (last (q :: qs) p)).
  rewrite IH. destruct qs as [|a qs]; [reflexivity|].
  f_equal. change (last (a :: qs) q = last (a :: qs) p).
  apply last_cons_default.
Qed.

Lemma iloc_first {A : Type} (p : A) (ps : list A) : iloc (p :: ps) 0 = Some p.
Proof. reflexivity. Qed.

Lemma iloc_last {A : Type} (p : A) (ps : list A) :
  iloc (p :: ps) (-1) = Some (last ps p).
Proof.
  unfold iloc. change (0 <=? -1) with false. cbv iota.
  replace (Z.of_nat (List.length (p :: ps)) + -1) with (Z.of_nat (List.length ps))
    by (simpl List.length; lia).
  destruct (Z.leb_spec 0 (Z.of_nat (List.length ps))) as [_|H]; [|lia].
  rewrite Nat2Z.id. apply nth_error_last.
Qed.

Lemma iloc_empty {A : Type} (i : Z) : iloc (@nil A) i = None.
Proof.
  unfold iloc. simpl List.length.
  destruct (0 <=? i) eqn:E.
  - destruct (Z.to_nat i); reflexivity.
  - change (Z.of_nat 0 + i) with i. rewrite E. reflexivity.
Qed.

(** The classifier on a non-empty frame, unfolded. *)
Lemma classify_trend_cons (p : yearly_point) (ps : list yearly_point) :
  classify_trend (p :: ps) =
  let q := last ps p in
  let change := PrimFloat.sub (yp_value q) (yp_value p) in
  let pc := if is_zero (yp_value p) then None
            else Some (PrimFloat.mul (PrimFloat.div change (yp_value p)) f100) in
  Some (mkTrend (year_of_row (yp_year p)) (year_of_row (yp_year q))
                (yp_value p) (yp_value q) change pc (trend_label pc)).
Proof.
  unfold classify_trend. rewrite iloc_first, iloc_last. reflexivity.
Qed.

Lemma classify_trend_empty : classify_trend [] = None.
Proof. reflexivity. Qed.

(** The three numeric branches of the label, one at a time. *)
Lemma trend_label_increasing (pc : float) :
  PrimFloat.ltb f10 pc = true -> trend_label (Some pc) = "increasing".
Proof. intros H. unfold trend_label. rewrite H. reflexivity. Qed.

Lemma trend_label_decreasing (pc : float) :
  PrimFloat.ltb pc fm10 = true -> trend_label (Some pc) = "decreasing".
Proof.
  intros H. unfold trend_label. rewrite (below_not_above pc H), H. reflexivity.
Qed.

Lemma trend_label_stable (pc : float) :
  PrimFloat.ltb f10 pc = false -> PrimFloat.ltb pc fm10 = false ->
  trend_label (Some pc) = "relatively stable".
Proof. intros H1 H2. unfold trend_label. rewrite H1, H2. reflexivity. Qed.

Lemma trend_label_uncertain_iff (pc : option float) :
  trend_label pc = "uncertain" <-> pc = None.
Proof.
  split; [|intros ->; reflexivity].
  destruct pc as [x|]; [|reflexivity]. unfold trend_label.
  destruct (PrimFloat.ltb f10 x); [discriminate|].
  destruct (PrimFloat.ltb x fm10); discriminate.
Qed.

(** C1. On every non-empty frame the classifier returns a summary.  When the
    first value equals zero its percent change is [None] and its label
    "uncertain".  Otherwise its percent change is that of the frame,
    (last - first) / first * 100, and the label follows it: "increasing"
    above 10, "decreasing" below -10, "relatively stable" in every other
    case, which covers the whole closed range from -10 to 10 and both of its
    end points. *)
Theorem classify_trend_thresholds (p : yearly_point) (ps : list yearly_point) :
  let first := yp_value p in
  let last := yp_value (last ps p) in
  let pc := PrimFloat.mul (PrimFloat.div (PrimFloat.sub last first) first) f100 in
  exists t, classify_trend (p :: ps) = Some t /\
    (is_zero first = true ->
     percent_change t = None /\ label t = "uncertain") /\
    (is_zero first = false ->
     percent_change t = Some pc /\
     (PrimFloat.ltb f10 pc = true -> label t = "increasing") /\
     (PrimFloat.ltb pc fm10 = true -> label t = "decreasing") /\
     (PrimFloat.ltb f10 pc = false -> PrimFloat.ltb pc fm10 = false ->
      label t = "relatively stable") /\
     (PrimFloat.leb fm10 pc = true -> PrimFloat.leb pc f10 = true ->
      label t = "relatively stable") /\
     (PrimFloat.eqb pc f10 = true -> label t = "relatively stable") /\
     (PrimFloat.eqb pc fm10 = true -> label t = "relatively stable")) /\
    match percent_change t with
    | None => label t = "uncertain"
    | Some pc' =>
        (PrimFloat.ltb f10 pc' = true -> label t = "increasing") /\
        (PrimFloat.ltb pc' fm10 = true -> label t = "decreasing") /\
        (PrimFloat.ltb f10 pc' = false -> PrimFloat.ltb pc' fm10 = false ->
         label t = "relatively stable") /\
        (PrimFloat.leb fm10 pc' = true -> PrimFloat.leb pc' f10 = true ->
         label t = "relatively stable") /\
        (PrimFloat.eqb pc' f10 = true -> label t = "relatively stable") /\
        (PrimFloat.eqb pc' fm10 = true -> label t = "relatively stable")
    end.
Proof.
  intros first last pc.
  assert (Hcascade : forall x : float,
    (PrimFloat.ltb f10 x = true -> trend_label (Some x) = "increasing") /\
    (PrimFloat.ltb x fm10 = true -> trend_label (Some x) = "decreasing") /\
    (PrimFloat.ltb f10 x = false -> PrimFloat.ltb x fm10 = false ->
     trend_label (Some x) = "relatively stable") /\
    (PrimFloat.leb fm10 x = true -> PrimFloat.leb x f10 = true ->
     trend_label (Some x) = "relatively stable") /\
    (PrimFloat.eqb x f10 = true -> trend_label (Some x) = "relatively stable") /\
    (PrimFloat.eqb x fm10 = true -> trend_label (Some x) = "relatively stable")).
  { intros x. repeat split.
    - apply trend_label_increasing.
    - apply trend_label_decreasing.
    - apply trend_label_stable.
    - intros Hlo Hhi. apply trend_label_stable; apply leb_ltb_false; assumption.
    - intros H. apply trend_label_stable; [apply (eqb_ltb_false _ _ H)|].
      apply (eq_plus10_not_below _ H).
    - intros H. apply trend_label_stable; [|apply (eqb_ltb_false _ _ H)].
      apply (eq_minus10_not_above _ H). }
  rewrite classify_trend_cons. cbv zeta. eexists. split; [reflexivity|].
  cbn [percent_change label]. fold first last pc.
  destruct (is_zero first) eqn:Hz.
  - split; [intros _; split; reflexivity|]. split; [discriminate | reflexivity].
  - split; [discriminate|]. split; [|apply Hcascade].
    intros _. split; [reflexivity | apply Hcascade].
Qed.

(** The worked case of the classifier: 40.0 in 2015 and 30.0 in 2020 is a
    change of -10.0, -25 percent, "decreasing". *)
Example classify_trend_scenario :
  classify_trend [mkPoint 2015 40%float; mkPoint 2020 30%float]
  = Some (mkTrend 2015 2020 40%float 30%float (-10)%float (Some (-25)%float)
                  "decreasing").
Proof. reflexivity. Qed.

(** C1, at the two end points: a rise from 10 to 11 is exactly +10 percent
    and a fall from 10 to 9 exactly -10 percent; both are "relatively
    stable". *)
Example classify_trend_at_thresholds :
  option_map (fun t => (percent_change t, label t))
    (classify_trend [mkPoint 2000 10%float; mkPoint 2001 11%float])
  = Some (Some 10%float, "relatively stable") /\
  option_map (fun t => (percent_change t, label t))
    (classify_trend [mkPoint 2000 10%float; mkPoint 2001 9%float])
  = Some (Some (-10)%float, "relatively stable").
Proof. split; vm_compute; reflexivity. Qed.

(** C2. On every non-empty frame the classifier returns a summary that
    compares the first row with the last; its percent change is [None]
    exactly when the first value equals zero and is otherwise
    (end - start) / start * 100; its label is "uncertain" exactly when the
    percent change is [None]. *)
Theorem classify_trend_percent_change (p : yearly_point) (ps : list yearly_point) :
  exists t, classify_trend (p :: ps) = Some t /\
    start_val t = yp_value p /\
    end_val t = yp_value (last ps p) /\
    absolute_change t = PrimFloat.sub (end_val t) (start_val t) /\
    (percent_change t = None <-> is_zero (start_val t) = true) /\
    (is_zero (start_val t) = false ->
     percent_change t =
       Some (PrimFloat.mul
               (PrimFloat.div (PrimFloat.sub (end_val t) (start_val t)) (start_val t))
               f100)) /\
    (label t = "uncertain" <-> percent_change t = None).
Proof.
  rewrite classify_trend_cons. cbv zeta. eexists. split; [reflexivity|].
  cbn [start_val end_val absolute_change percent_change label].
  repeat split; try apply trend_label_uncertain_iff.
  - destruct (is_zero (yp_value p)); [reflexivity | discriminate].
  - intros ->. reflexivity.
  - intros ->. reflexivity.
Qed.




(** An infinite value does reach the classifier: the cleaner keeps it, and
    the mean of a year that holds it alone is infinite. *)
Example infinity_reaches_classifier :
  clean_who_botswana plain_to_int plain_to_float
    [mkRaw (CInt 2015) (CStr "MDG_0000000007") "Under-five mortality rate"
           (CFloat infinity) "Botswana" None None]
  = Ok [mkObs (CStr "MDG_0000000007") "Under-five mortality rate" 2015 infinity
              "Botswana" None None "None – All"] /\
  df_yearly group_mean
    [mkObs (CStr "MDG_0000000007") "Under-five mortality rate" 2015 infinity
           "Botswana" None None "None – All"]
    "Under-five mortality rate" ALL_BREAKDOWNS (2015, 2015)
  = [mkPoint 2015 infinity].
Proof. split; reflexivity. Qed.

(** ** Summary metrics *)

Lemma iloc_app_last {A : Type} (l : list A) (q r : A) :
  iloc (l ++ [q; r])%list (-1) = Some r.
Proof.
  unfold iloc. change (0 <=? -1) with false. cbv iota.
  rewrite length_app. simpl List.length.
  replace (Z.of_nat (List.length l + 2) + -1) with (Z.of_nat (S (List.length l))) by lia.
  destruct (Z.leb_spec 0 (Z.of_nat (S (List.length l)))) as [_|H]; [|lia].
  rewrite Nat2Z.id.
  rewrite nth_error_app2 by lia.
  replace (S (List.length l) - List.length l)%nat with 1%nat by lia. reflexivity.
Qed.

Lemma iloc_app_prev {A : Type} (l : list A) (q r : A) :
  iloc (l ++ [q; r])%list (-2) = Some q.
Proof.
  unfold iloc. change (0 <=? -2) with false. cbv iota.
  rewrite length_app. simpl List.length.
  replace (Z.of_nat (List.length l + 2) + -2) with (Z.of_nat (List.length l)) by lia.
  destruct (Z.leb_spec 0 (Z.of_nat (List.length l))) as [_|H]; [|lia].
  rewrite Nat2Z.id.
  rewrite nth_error_app2 by lia.
  rewrite Nat.sub_diag. reflexivity.
Qed.

Lemma kpis_single (p : yearly_point) :
  kpis [p] = Some (mkKpi (year_of_row (yp_year p)) (yp_value p) (Some f0) None).
Proof. reflexivity. Qed.

Lemma kpis_two_or_more (l : list yearly_point) (q r : yearly_point) :
  kpis (l ++ [q; r])%list =
  let change := PrimFloat.sub (yp_value r) (yp_value q) in
  Some (mkKpi (year_of_row (yp_year r)) (yp_value r) (Some change)
          (if negb (is_zero (yp_value q))
           then Some (PrimFloat.mul (PrimFloat.div change (yp_value q)) f100)
           else None)).
Proof.
  unfold kpis. rewrite iloc_app_last, iloc_app_prev.
  assert (Hlen : (1 <? List.length (l ++ [q; r])%list)%nat = true).
  { apply Nat.ltb_lt. rewrite length_app. simpl. lia. }
  rewrite Hlen. reflexivity.
Qed.

(** C9, as the script has it.  With two rows or more, the change and the
    percent change against the previous row are the absolute and the percent
    change the classifier computes on the last two rows, so the percent
    change is [None] exactly when the previous value equals zero.  With one
    row the percent change is [None] and the change is the number 0.0.  The
    change is a number in every case.  The latest year is the year of the
    last row as read back from that row, the year itself when it is under
    2^53 in size. *)
Theorem kpis_previous_point :
  (forall p, exists k, kpis [p] = Some k /\
     latest_year k = year_of_row (yp_year p) /\
     (Z.abs (yp_year p) < 2 ^ 53 -> latest_year k = yp_year p) /\
     latest_value k = yp_value p /\
     change_abs k = Some f0 /\ change_pct k = None) /\
  (forall l q r, exists k t,
     kpis (l ++ [q; r])%list = Some k /\ classify_trend [q; r] = Some t /\
     latest_year k = year_of_row (yp_year r) /\
     (Z.abs (yp_year r) < 2 ^ 53 -> latest_year k = yp_year r) /\
     latest_value k = yp_value r /\
     change_abs k = Some (absolute_change t) /\
     change_pct k = percent_change t /\
     (change_pct k = None <-> is_zero (yp_value q) = true)) /\
  kpis [] = None.
Proof.
  split; [|split].
  - intros p. rewrite kpis_single. eexists. split; [reflexivity|].
    cbn [latest_year]. repeat split. apply year_of_row_exact.
  - intros l q r. rewrite kpis_two_or_more, classify_trend_cons. cbv zeta.
    do 2 eexists. split; [reflexivity|]. split; [reflexivity|].
    cbn [latest_year latest_value change_abs change_pct absolute_change
         percent_change last yp_value].
    repeat split.
    + apply year_of_row_exact.
    + destruct (is_zero (yp_value q)); reflexivity.
    + destruct (is_zero (yp_value q)); [reflexivity | discriminate].
    + intros ->. reflexivity.
  - reflexivity.
Qed.

(** C9 as worded fails for the change: with a single row it is the number
    0.0, and after a previous value of zero it is the plain difference;
    only the percent change is [None] there. *)
Lemma kpis_change_is_a_number :
  (exists k, kpis [mkPoint 2020 5%float] = Some k /\
     change_abs k = Some 0%float /\ change_abs k <> None /\ change_pct k = None) /\
  (exists k, kpis [mkPoint 2019 0%float; mkPoint 2020 5%float] = Some k /\
     change_abs k = Some 5%float /\ change_abs k <> None /\ change_pct k = None).
Proof.
  split; eexists; (split; [reflexivity|]);
    (split; [reflexivity|]); (split; [discriminate | reflexivity]).
Qed.

(** ** Trend narrative *)

(** C10. The narrative does not read the indicator name, nor the absolute
    change: for one summary any two names give the same text, and the text is
    settled by the label, the two years, the two values and the percent
    change. *)
Theorem make_trend_narrative_ignores_name
    (fmt : formatters) (name1 name2 : string) (t : trend_info) (change : float) :
  make_trend_narrative fmt name1 t = make_trend_narrative fmt name2 t /\
  make_trend_narrative fmt name1 t =
  make_trend_narrative fmt name2
    (mkTrend (start_year t) (end_year t) (start_val t) (end_val t)
             change (percent_change t) (label t)).
Proof. split; reflexivity. Qed.

(** ** The main script *)

Lemma nonempty_shape {A : Type} (l : list A) :
  l <> [] -> (exists p, l = [p]) \/ (exists l' q r, l = (l' ++ [q; r])%list).
Proof.
  induction l as [|x l IH] using rev_ind; [congruence|]. intros _.
  destruct l as [|y l'] using rev_ind.
  - left. exists x. reflexivity.
  - right. exists l', y, x. rewrite <- app_assoc. reflexivity.
Qed.

(** On a non-empty frame the metrics exist and the change is a number. *)
Lemma kpis_cons (p : yearly_point) (ps : list yearly_point) :
  exists k c, kpis (p :: ps) = Some k /\ change_abs k = Some c.
Proof.
  destruct (nonempty_shape (p :: ps)) as [[x E]|[l' [q [r E]]]]; [discriminate| |];
    rewrite E.
  - rewrite kpis_single. do 2 eexists. split; reflexivity.
  - rewrite kpis_two_or_more. cbv zeta. do 2 eexists. split; reflexivity.
Qed.

(** How one statement of the script moves the state. *)
Lemma bind_ret {A B : Type} (a : A) (k : A -> script B) (s : app_state) :
  bind (ret a) k s = k a s.
Proof. reflexivity. Qed.

Lemma bind_or_raise_some {A B : Type} (e : exn) (a : A) (k : A -> script B)
    (s : app_state) :
  bind (or_raise e (Some a)) k s = k a s.
Proof. reflexivity. Qed.

Lemma bind_emit {B : Type} (e : ui_event) (k : unit -> script B) (s : app_state) :
  bind (emit e) k s
  = k tt (mkApp (page s ++ [e])%list (var_trend_info s) (var_narrative s)).
Proof. reflexivity. Qed.

Lemma bind_assign_trend_info {B : Type} (t : trend_info) (k : unit -> script B)
    (s : app_state) :
  bind (assign_trend_info t) k s = k tt (mkApp (page s) (Some t) (var_narrative s)).
Proof. reflexivity. Qed.

Lemma bind_assign_narrative {B : Type} (n : string) (k : unit -> script B)
    (s : app_state) :
  bind (assign_narrative n) k s = k tt (mkApp (page s) (var_trend_info s) (Some n)).
Proof. reflexivity. Qed.

Lemma bind_stop {A B : Type} (k : A -> script B) (s : app_state) :
  bind st_stop k s = (s, Stopped).
Proof. reflexivity. Qed.

Ltac step_script :=
  first [ rewrite bind_ret | rewrite bind_or_raise_some | rewrite bind_emit
        | rewrite bind_assign_trend_info | rewrite bind_assign_narrative
        | rewrite bind_stop ];
  cbv beta zeta; cbn [page var_trend_info var_narrative].

(** C6. When the filtered and aggregated frame is empty, the script puts the
    no-data warning on the page and stops there: nothing else is shown and
    neither the trend summary nor the narrative is assigned.  Started on a
    fresh page, the run ends with the warning alone and both variables
    unset. *)
Theorem show_selection_no_data
    (mean : list float -> float) (df : list observation)
    (selected_indicator selected_breakdown : string) (year_range : Z * Z) :
  df_yearly mean df selected_indicator selected_breakdown year_range = [] ->
  forall (fmt : formatters),
    (forall s : app_state,
       show_selection fmt mean df selected_indicator selected_breakdown year_range s
       = (mkApp (page s ++ [st_warning NO_DATA])%list
                (var_trend_info s) (var_narrative s), Stopped)) /\
    show_selection fmt mean df selected_indicator selected_breakdown year_range fresh
    = (mkApp [st_warning NO_DATA] None None, Stopped).
Proof.
  intros Hempty fmt.
  assert (H : forall s : app_state,
    show_selection fmt mean df selected_indicator selected_breakdown year_range s
    = (mkApp (page s ++ [st_warning NO_DATA])%list
             (var_trend_info s) (var_narrative s), Stopped)).
  { intros s. unfold show_selection. rewrite Hempty. reflexivity. }
  split; [exact H|]. rewrite H. reflexivity.
Qed.

(** With data, the script runs to its end, and the summary and the narrative
    it assigns are those of the classifier on the aggregated frame. *)
Lemma show_selection_with_data
    (fmt : formatters) (mean : list float -> float) (df : list observation)
    (selected_indicator selected_breakdown : string) (year_range : Z * Z) :
  df_yearly mean df selected_indicator selected_breakdown year_range <> [] ->
  exists s' t,
    show_selection fmt mean df selected_indicator selected_breakdown year_range fresh
    = (s', Done tt) /\
    classify_trend (df_yearly mean df selected_indicator selected_breakdown year_range)
    = Some t /\
    var_trend_info s' = Some t /\
    var_narrative s' = Some (make_trend_narrative fmt selected_indicator t) /\
    ~ In (st_warning NO_DATA) (page s').
Proof.
  intros Hne. unfold show_selection.
  destruct (df_yearly mean df selected_indicator selected_breakdown year_range)
    as [|p ps]; [congruence|].
  destruct (kpis_cons p ps) as [k [c [Hk Hc]]].
  rewrite Hk, classify_trend_cons. cbv zeta.
  set (t := mkTrend _ _ _ _ _ _ _).
  unfold fresh. do 8 step_script. rewrite Hc. do 9 step_script. unfold emit.
  do 2 eexists. split; [reflexivity|]. split; [reflexivity|].
  cbn [page var_trend_info var_narrative app].
  split; [reflexivity|]. split; [reflexivity|].
  intros Hin. repeat (destruct Hin as [Hin|Hin]; [discriminate Hin|]).
  exact Hin.
Qed.

(** ** Indicator explainer *)

Lemma prefix_app (p s : string) :
  String.prefix p s = true <-> exists rest, s = p ++ rest.
Proof.
  revert s. induction p as [|c p IH]; intros s.
  - destruct s; simpl; (split; [intros _; eexists; reflexivity | reflexivity]).
  - destruct s as [|d s]; simpl.
    + split; [discriminate | intros [rest H]; discriminate H].
    + destruct (Ascii.ascii_dec c d) as [->|Hcd].
      * rewrite IH. split; intros [rest H]; exists rest.
        -- rewrite H. reflexivity.
        -- injection H as H. exact H.
      * split; [discriminate|]. intros [rest H]. injection H as H1 H2. congruence.
Qed.

(** [str_in] is the substring test. *)
Lemma str_in_spec (sub s : string) :
  str_in sub s = true <-> exists before after, s = before ++ sub ++ after.
Proof.
  induction s as [|c s IH].
  - cbn [str_in]. destruct (String.prefix sub "") eqn:E.
    + split; [intros _|reflexivity]. apply prefix_app in E as [rest E].
      exists "", rest. exact E.
    + split; [discriminate|]. intros [before [after H]].
      destruct before; [|discriminate H]. simpl in H.
      assert (String.prefix sub "" = true) by (apply prefix_app; eauto).
      congruence.
  - cbn [str_in]. destruct (String.prefix sub (String c s)) eqn:E.
    + split; [intros _|reflexivity]. apply prefix_app in E as [rest E].
      exists "", rest. exact E.
    + rewrite IH. split.
      * intros [before [after H]]. exists (String c before), after.
        rewrite H. reflexivity.
      * intros [before [after H]]. destruct before as [|d before].
        -- simpl in H.
           assert (String.prefix sub (String c s) = true) by (apply prefix_app; eauto).
           congruence.
        -- injection H as _ H. eauto.
Qed.

Lemma lower_ascii_idempotent (c : ascii) : lower_ascii (lower_ascii c) = lower_ascii c.
Proof. destruct c as [[] [] [] [] [] [] [] []]; reflexivity. Qed.

Lemma lower_idempotent (s : string) : lower (lower s) = lower s.
Proof.
  induction s as [|c s IH]; [reflexivity|].
  simpl. rewrite lower_ascii_idempotent, IH. reflexivity.
Qed.

Lemma texts_not_generic :
  text_child <> text_generic /\ text_adolescent <> text_generic /\
  text_maternal <> text_generic /\ text_hiv <> text_generic /\
  text_tb <> text_generic /\ text_suicide <> text_generic.
Proof. repeat split; apply String.eqb_neq; vm_compute; reflexivity. Qed.

(** C8. The explainer is the first-match lookup over the six keyword groups
    in their priority order, made on the lower-cased name; a keyword matches
    when it occurs as a substring; names that differ in letter case only get
    the same text; the generic sentence is returned exactly when no group
    matches; and "HIV mortality rate" gets the HIV paragraph. *)
Theorem describe_indicator_routing :
  (forall name, describe_indicator name = explain_spec name) /\
  (forall name g, group_matches name g = true <->
     exists kw before after,
       In kw (fst g) /\ lower name = before ++ kw ++ after) /\
  (forall name name', lower name = lower name' ->
     describe_indicator name = describe_indicator name') /\
  (forall name, describe_indicator (lower name) = describe_indicator name) /\
  (forall name, describe_indicator name = text_generic <->
     forall g, In g keyword_groups -> group_matches name g = false) /\
  describe_indicator "HIV mortality rate" = text_hiv /\
  text_hiv <> text_generic.
Proof.
  assert (Hspec : forall name, describe_indicator name = explain_spec name).
  { intros name. unfold describe_indicator, explain_spec, keyword_groups, group_matches.
    cbn [find existsb fst snd].
    destruct (str_in "infant" (lower name)), (str_in "neonatal" (lower name)),
      (str_in "under-five" (lower name)), (str_in "adolescent" (lower name)),
      (str_in "maternal" (lower name)), (str_in "hiv" (lower name)),
      (str_in "tb" (lower name)), (str_in "tuberculosis" (lower name)),
      (str_in "suicide" (lower name)); reflexivity. }
  assert (Hcase : forall name name', lower name = lower name' ->
            describe_indicator name = describe_indicator name').
  { intros name name' H. unfold describe_indicator. rewrite H. reflexivity. }
  split; [exact Hspec|]. split; [|split; [exact Hcase|split; [|split; [|split]]]].
  - intros name g. unfold group_matches. rewrite existsb_exists. split.
    + intros [kw [Hin Hkw]]. apply str_in_spec in Hkw as [before [after H]].
      exists kw, before, after. split; assumption.
    + intros [kw [before [after [Hin H]]]]. exists kw. split; [exact Hin|].
      apply str_in_spec. eauto.
  - intros name. apply Hcase. apply lower_idempotent.
  - intros name. rewrite Hspec. unfold explain_spec.
    destruct (find (group_matches name) keyword_groups) as [g|] eqn:E.
    + apply find_some in E as [Hin Hg]. split.
      * intros Htext. exfalso.
        pose proof texts_not_generic as [H1 [H2 [H3 [H4 [H5 H6]]]]].
        unfold keyword_groups in Hin.
        repeat (destruct Hin as [<-|Hin]; [simpl in Htext; congruence|]).
        exact Hin.
      * intros Hnone. rewrite (Hnone g Hin) in Hg. discriminate Hg.
    + split; [|reflexivity]. intros _ g Hin.
      apply (find_none _ _ E g Hin).
  - vm_compute. reflexivity.
  - apply texts_not_generic.
Qed.

(** ** Loader and cleaner *)

Lemma filter_filter_andb {A : Type} (f g : A -> bool) (l : list A) :
  filter g (filter f l) = filter (fun x => f x && g x)%bool l.
Proof.
  induction l as [|x l IH]; [reflexivity|]. simpl.
  destruct (f x); simpl; [destruct (g x)|]; rewrite IH; reflexivity.
Qed.

Lemma astype_some {A : Type} (conv : cell -> option A) (col : list cell) (l : list A) :
  astype conv col = Some l <-> map conv col = map Some l.
Proof.
  revert l. induction col as [|c col IH]; intros l; simpl.
  - destruct l; split; intros H; try reflexivity; discriminate H.
  - destruct (conv c) as [a|] eqn:Ec.
    + destruct (astype conv col) as [l'|] eqn:Ea.
      * pose proof (proj1 (IH l') eq_refl) as Hl'. split.
        -- intros H. injection H as <-. simpl. rewrite Hl'. reflexivity.
        -- destruct l as [|b l]; intros H; [discriminate H|].
           simpl in H. injection H as -> H. rewrite Hl' in H.
           f_equal. f_equal.
           clear -H. revert l H. induction l' as [|x l' IHl]; intros [|y l] H;
             try discriminate H; [reflexivity|].
           simpl in H. injection H as -> H. f_equal. apply IHl. exact H.
      * split; [discriminate|]. destruct l as [|b l]; intros H; [discriminate H|].
        simpl in H. injection H as _ H. apply IH in H. discriminate H.
    + split; [discriminate|]. destruct l as [|b l]; intros H; discriminate H.
Qed.

Lemma astype_none {A : Type} (conv : cell -> option A) (col : list cell) :
  astype conv col = None <-> exists c, In c col /\ conv c = None.
Proof.
  induction col as [|c col IH]; simpl.
  - split; [discriminate | intros [c [[] _]]].
  - destruct (conv c) as [a|] eqn:Ec.
    + destruct (astype conv col) as [l'|] eqn:Ea.
      * split; [discriminate|]. intros [c' [[<-|Hin] Hc']]; [congruence|].
        assert (H0 : Some l' = None) by (apply IH; eauto). discriminate H0.
      * split; [|reflexivity]. intros _.
        destruct (proj1 IH eq_refl) as [c' [Hin Hc']]. eauto.
    + split; [|reflexivity]. intros _. exists c. split; [left; reflexivity | exact Ec].
Qed.

Lemma kept_rows_filters (df_raw : list raw_row) :
  filter (fun r => negb (isna (raw_numeric r)))
    (filter (fun r => negb (starts_with_hash (raw_gho_code r)))
       (filter (fun r => negb (starts_with_hash (raw_year_display r))) df_raw))
  = kept_rows df_raw.
Proof.
  unfold kept_rows. rewrite !filter_filter_andb. apply filter_ext.
  intros r. rewrite Bool.andb_assoc. reflexivity.
Qed.

Section CleanerFacts.
Variable to_int : cell -> option Z.
Variable to_float : cell -> option float.

Let clean := clean_who_botswana to_int to_float.
Let convert := convert_row to_int to_float.

Lemma clean_unfold (df_raw : list raw_row) :
  clean df_raw =
  let df := kept_rows df_raw in
  match astype to_int (map raw_year_display df) with
  | None => Raise (ValueError "YEAR (DISPLAY)")
  | Some years =>
      match astype to_float (map raw_numeric df) with
      | None => Raise (ValueError "Numeric")
      | Some values =>
          if breakdown_column_ok df_raw
          then Ok (map (fun '(r, (y, v)) => make_observation r y v)
                       (combine df (combine years values)))
          else Raise TypeError
      end
  end.
Proof.
  unfold clean, clean_who_botswana, breakdown_column_ok.
  rewrite kept_rows_filters. cbv zeta.
  destruct (astype to_int (map raw_year_display (kept_rows df_raw))) as [years|];
    [|reflexivity].
  destruct (astype to_float (map raw_numeric (kept_rows df_raw))) as [values|];
    [|reflexivity].
  destruct (kept_rows df_raw) as [|r df]; [|reflexivity].
  destruct (text_column (map raw_dimension_type df_raw)); reflexivity.
Qed.

Lemma convert_rows_combine (df : list raw_row) (years : list Z) (values : list float) :
  map to_int (map raw_year_display df) = map Some years ->
  map to_float (map raw_numeric df) = map Some values ->
  map convert df =
  map Some (map (fun '(r, (y, v)) => make_observation r y v)
                (combine df (combine years values))).
Proof.
  revert years values. induction df as [|r df IH]; intros years values Hy Hv.
  - reflexivity.
  - destruct years as [|y years]; [discriminate Hy|].
    destruct values as [|v values]; [discriminate Hv|].
    simpl in Hy, Hv. injection Hy as Hy1 Hy. injection Hv as Hv1 Hv.
    simpl. rewrite (IH years values Hy Hv).
    unfold convert, convert_row. rewrite Hy1, Hv1. reflexivity.
Qed.

Lemma map_Some_inj {A : Type} (l l' : list A) : map Some l = map Some l' -> l = l'.
Proof.
  revert l'. induction l as [|x l IH]; intros [|y l'] H; try discriminate H;
    [reflexivity|].
  simpl in H. injection H as -> H. f_equal. apply IH. exact H.
Qed.

Lemma convert_none_iff (r : raw_row) :
  convert r = None <->
  to_int (raw_year_display r) = None \/ to_float (raw_numeric r) = None.
Proof.
  unfold convert, convert_row.
  destruct (to_int (raw_year_display r)), (to_float (raw_numeric r));
    split; intros H; try discriminate H; try reflexivity; auto;
    destruct H as [H|H]; discriminate H.
Qed.

(** A kept row that does not convert, seen from the two columns. *)
Lemma conversions_fail_iff (df : list raw_row) :
  (astype to_int (map raw_year_display df) = None \/
   astype to_float (map raw_numeric df) = None) <->
  exists r, In r df /\ convert r = None.
Proof.
  split.
  - intros [H|H]; apply astype_none in H as [c [Hin Hc]];
      apply in_map_iff in Hin as [r [<- Hin]];
      exists r; (split; [exact Hin|]); apply convert_none_iff; auto.
  - intros [r [Hin Hr]]. apply convert_none_iff in Hr as [Hr|Hr].
    + left. apply astype_none. exists (raw_year_display r).
      split; [apply in_map; exact Hin | exact Hr].
    + right. apply astype_none. exists (raw_numeric r).
      split; [apply in_map; exact Hin | exact Hr].
Qed.

(** What the cleaner does, by its outcome: it returns the converted kept
    rows when all of them convert and line 53 goes through, raises a
    [ValueError] for a kept row that does not convert, and a [TypeError]
    when all kept rows convert and line 53 does not go through. *)
Lemma clean_cases (df_raw : list raw_row) :
  match clean df_raw with
  | Ok out =>
      map convert (kept_rows df_raw) = map Some out /\
      breakdown_column_ok df_raw = true
  | Raise (ValueError _) =>
      exists r, In r (kept_rows df_raw) /\ convert r = None
  | Raise TypeError =>
      (forall r, In r (kept_rows df_raw) -> convert r <> None) /\
      breakdown_column_ok df_raw = false
  | Raise IndexError => False
  end.
Proof.
  rewrite clean_unfold. cbv zeta.
  pose proof (conversions_fail_iff (kept_rows df_raw)) as Hfail.
  destruct (astype to_int (map raw_year_display (kept_rows df_raw)))
    as [years|] eqn:Ey.
  - destruct (astype to_float (map raw_numeric (kept_rows df_raw)))
      as [values|] eqn:Ev.
    + destruct (breakdown_column_ok df_raw).
      * split; [|reflexivity].
        apply astype_some in Ey. apply astype_some in Ev.
        apply (convert_rows_combine _ _ _ Ey Ev).
      * split; [|reflexivity]. intros r Hin Hr.
        destruct (proj2 Hfail (ex_intro _ r (conj Hin Hr))) as [H|H]; discriminate H.
    + apply Hfail. right. reflexivity.
  - apply Hfail. left. reflexivity.
Qed.

Lemma clean_ok_iff (df_raw : list raw_row) (out : list observation) :
  clean df_raw = Ok out <->
  map convert (kept_rows df_raw) = map Some out /\ breakdown_column_ok df_raw = true.
Proof.
  pose proof (clean_cases df_raw) as H. split.
  - intros E. rewrite E in H. exact H.
  - intros [Hmap Hok]. destruct (clean df_raw) as [out'|[column| |]].
    + destruct H as [H _]. rewrite Hmap in H. apply map_Some_inj in H.
      rewrite H. reflexivity.
    + exfalso. destruct H as [r [Hin Hr]].
      assert (Hc : In (convert r) (map Some out)).
      { rewrite <- Hmap. apply in_map. exact Hin. }
      apply in_map_iff in Hc as [o [Ho _]]. congruence.
    + destruct H.
    + destruct H as [_ H]. congruence.
Qed.

(** Every cleaned row is the conversion of a kept raw row. *)
Lemma clean_ok_in (df_raw : list raw_row) (out : list observation) (o : observation) :
  clean df_raw = Ok out -> In o out ->
  exists r y v,
    In r (kept_rows df_raw) /\
    to_int (raw_year_display r) = Some y /\
    to_float (raw_numeric r) = Some v /\
    o = make_observation r y v.
Proof.
  intros Hok Hin. apply clean_ok_iff in Hok as [Hok _].
  assert (Hs : In (Some o) (map convert (kept_rows df_raw))).
  { rewrite Hok. apply in_map. exact Hin. }
  apply in_map_iff in Hs as [r [Hr Hk]].
  unfold convert, convert_row in Hr.
  destruct (to_int (raw_year_display r)) as [y|] eqn:Ey; [|discriminate Hr].
  destruct (to_float (raw_numeric r)) as [v|] eqn:Ev; [|discriminate Hr].
  injection Hr as <-. exists r, y, v.
  split; [exact Hk|]. split; [exact Ey|]. split; [exact Ev | reflexivity].
Qed.

(** The fields of the cleaned rows, column by column, from the kept rows. *)
Lemma clean_ok_columns (df_raw : list raw_row) (out : list observation) :
  clean df_raw = Ok out ->
  map breakdown out = map breakdown_of_raw (kept_rows df_raw) /\
  map dimension_type out = map raw_dimension_type (kept_rows df_raw) /\
  map dimension_name out = map raw_dimension_name (kept_rows df_raw).
Proof.
  intros Hok. apply clean_ok_iff in Hok as [Hok _].
  revert out Hok. induction (kept_rows df_raw) as [|r df IH]; intros out Hok.
  - destruct out; [repeat split | discriminate Hok].
  - destruct out as [|o out]; [discriminate Hok|].
    simpl in Hok. injection Hok as Hr Hrest.
    destruct (IH out Hrest) as [H1 [H2 H3]].
    unfold convert, convert_row in Hr.
    destruct (to_int (raw_year_display r)) as [y|]; [|discriminate Hr].
    destruct (to_float (raw_numeric r)) as [v|]; [|discriminate Hr].
    injection Hr as <-. simpl. rewrite H1, H2, H3. repeat split.
Qed.
End CleanerFacts.





(** No row left: the frame of the metadata row alone, whose type column
    holds a text, is cleaned to the empty frame, as is the frame without
    rows; a frame whose rows are all left out and whose type column holds
    no text makes line 53 raise. *)
Example clean_who_botswana_no_row_left :
  clean_who_botswana plain_to_int plain_to_float [row_metadata] = Ok [] /\
  clean_who_botswana plain_to_int plain_to_float [] = Ok [] /\
  clean_who_botswana plain_to_int plain_to_float
    [mkRaw (CInt 2017) (CStr "MDG_0000000007") "Under-five mortality rate"
           NA "Botswana" None (Some "Both sexes")]
  = Raise TypeError.
Proof. repeat split. Qed.

(** The separator is a space, an en dash (three bytes in UTF-8) and a
    space. *)
Example separator_bytes :
  separator = String " " (String (ascii_of_nat 226) (String (ascii_of_nat 128)
                (String (ascii_of_nat 147) (String " " EmptyString)))).
Proof. reflexivity. Qed.

(** C7. The cleaned rows carry, in row order, the breakdown labels of the
    kept raw rows: the dimension type of the raw row, or "None" when that is
    missing, then " – ", then its dimension name, or "All" when that is
    missing.  The dimension fields of a cleaned row are those of its raw
    row, so its breakdown is made of its own fields in the same way. *)
Theorem clean_who_botswana_breakdown
    (to_int : cell -> option Z) (to_float : cell -> option float)
    (df_raw : list raw_row) (out : list observation) :
  clean_who_botswana to_int to_float df_raw = Ok out ->
  map breakdown out =
    map (fun r =>
           match raw_dimension_type r with Some t => t | None => "None" end
           ++ " – " ++
           match raw_dimension_name r with Some n => n | None => "All" end)
        (kept_rows df_raw) /\
  map dimension_type out = map raw_dimension_type (kept_rows df_raw) /\
  map dimension_name out = map raw_dimension_name (kept_rows df_raw) /\
  forall o, In o out ->
    breakdown o =
      match dimension_type o with Some t => t | None => "None" end
      ++ " – " ++
      match dimension_name o with Some n => n | None => "All" end.
Proof.
  intros Hok.
  destruct (clean_ok_columns _ _ _ _ Hok) as [H1 [H2 H3]].
  split; [exact H1|]. split; [exact H2|]. split; [exact H3|].
  intros o Hin.
  destruct (clean_ok_in _ _ _ _ _ Hok Hin) as [r [y [v [_ [_ [_ ->]]]]]].
  reflexivity.
Qed.

Lemma clean_who_botswana_breakdown_witness :
  clean_who_botswana plain_to_int plain_to_float
    [row_metadata; row_ok; row_no_type; row_no_value; row_no_name]
  = Ok [make_observation row_ok 2015 40%float;
        make_observation row_no_type 2016 41.5%float;
        make_observation row_no_name 2017 42%float] /\
  map breakdown [make_observation row_ok 2015 40%float;
                 make_observation row_no_type 2016 41.5%float;
                 make_observation row_no_name 2017 42%float]
  = ["SEX – Both sexes"; "None – Both sexes"; "SEX – All"] /\
  map dimension_type [make_observation row_ok 2015 40%float;
                      make_observation row_no_type 2016 41.5%float;
                      make_observation row_no_name 2017 42%float]
  = [Some "SEX"; None; Some "SEX"] /\
  map dimension_name [make_observation row_ok 2015 40%float;
                      make_observation row_no_type 2016 41.5%float;
                      make_observation row_no_name 2017 42%float]
  = [Some "Both sexes"; Some "Both sexes"; None] /\
  forall o, In o [make_observation row_ok 2015 40%float;
                  make_observation row_no_type 2016 41.5%float;
                  make_observation row_no_name 2017 42%float] ->
    breakdown o =
      match dimension_type o with Some t => t | None => "None" end
      ++ " – " ++
      match dimension_name o with Some n => n | None => "All" end.
Proof.
  split; [reflexivity|].
  apply (clean_who_botswana_breakdown plain_to_int plain_to_float
           [row_metadata; row_ok; row_no_type; row_no_value; row_no_name]).
  reflexivity.
Defined.

(** A missing type reads "None" and a missing name reads "All". *)
Example breakdown_defaults :
  breakdown (make_observation row_no_value 2017 1%float) = "SEX – All" /\
  breakdown (make_observation row_unparseable 2016 1%float) = "None – All".
Proof. split; reflexivity. Qed.

(** ** Filter and aggregator *)

Lemma selectedb_spec (ind brk : string) (yr : Z * Z) (o : observation) :
  selectedb ind brk yr o = true <-> selected ind brk yr o.
Proof.
  unfold selectedb, selected.
  rewrite !Bool.andb_true_iff, Bool.orb_true_iff, !String.eqb_eq, !Z.leb_le.
  tauto.
Qed.

Lemma apply_filters_filter (df : list observation) (ind brk : string) (yr : Z * Z) :
  apply_filters df ind brk yr = filter (selectedb ind brk yr) df.
Proof.
  unfold apply_filters, selectedb.
  destruct (String.eqb brk ALL_BREAKDOWNS); cbn [negb orb];
    rewrite !filter_filter_andb; apply filter_ext; intros o.
  - rewrite Bool.andb_true_r. reflexivity.
  - rewrite Bool.andb_assoc. reflexivity.
Qed.

Lemma group_add_keys (y : Z) (v : float) (g : list (Z * list float)) (k : Z) :
  In k (map fst (group_add y v g)) <-> k = y \/ In k (map fst g).
Proof.
  induction g as [|[k0 vs] rest IH]; simpl.
  - intuition.
  - destruct (y <? k0); [simpl; intuition|].
    destruct (Z.eqb_spec y k0) as [->|Hne]; simpl; [intuition|].
    rewrite IH. intuition.
Qed.

Lemma group_add_sorted (y : Z) (v : float) (g : list (Z * list float)) :
  StronglySorted Z.lt (map fst g) -> StronglySorted Z.lt (map fst (group_add y v g)).
Proof.
  induction g as [|[k0 vs] rest IH]; simpl; intros Hs.
  - repeat constructor.
  - apply StronglySorted_inv in Hs as [Hrest Hall].
    destruct (Z.ltb_spec y k0) as [Hlt|Hge].
    + simpl. constructor; [constructor; assumption|].
      constructor; [exact Hlt|].
      eapply Forall_impl; [|exact Hall]. intros a Ha. simpl in Ha. lia.
    + destruct (Z.eqb_spec y k0) as [->|Hne]; simpl.
      * constructor; assumption.
      * constructor; [apply IH; exact Hrest|].
        apply Forall_forall. intros k Hk. apply group_add_keys in Hk as [->|Hk].
        -- lia.
        -- rewrite Forall_forall in Hall. apply Hall. exact Hk.
Qed.

Lemma group_get_not_in (k : Z) (g : list (Z * list float)) :
  ~ In k (map fst g) -> group_get k g = None.
Proof.
  induction g as [|[k0 vs] rest IH]; simpl; intros H; [reflexivity|].
  destruct (Z.eqb_spec k k0) as [->|Hne]; [exfalso; auto|]. apply IH. auto.
Qed.

Lemma group_get_keys (k : Z) (g : list (Z * list float)) :
  In k (map fst g) <-> exists vs, group_get k g = Some vs.
Proof.
  induction g as [|[k0 vs] rest IH]; simpl.
  - split; [tauto | intros [vs H]; discriminate H].
  - destruct (Z.eqb_spec k k0) as [->|Hne].
    + split; [eauto | auto].
    + rewrite <- IH. split; [intros [H|H]; [congruence | exact H] | auto].
Qed.

Lemma group_get_in (k : Z) (vs : list float) (g : list (Z * list float)) :
  StronglySorted Z.lt (map fst g) -> In (k, vs) g -> group_get k g = Some vs.
Proof.
  induction g as [|[k0 vs0] rest IH]; simpl; intros Hs Hin; [tauto|].
  apply StronglySorted_inv in Hs as [Hrest Hall].
  destruct Hin as [Heq|Hin].
  - injection Heq as -> ->. rewrite Z.eqb_refl. reflexivity.
  - assert (Hk : In k (map fst rest)) by (apply (in_map fst _ _ Hin)).
    rewrite Forall_forall in Hall. specialize (Hall k Hk).
    destruct (Z.eqb_spec k k0) as [->|Hne]; [lia|]. apply IH; assumption.
Qed.

Lemma group_get_add (y : Z) (v : float) (g : list (Z * list float)) (k : Z) :
  StronglySorted Z.lt (map fst g) ->
  group_get k (group_add y v g) =
  if k =? y
  then Some (match group_get y g with
             | Some vs => (vs ++ [v])%list
             | None => [v]
             end)
  else group_get k g.
Proof.
  induction g as [|[k0 vs] rest IH]; intros Hs.
  - simpl. destruct (k =? y); reflexivity.
  - simpl in Hs. apply StronglySorted_inv in Hs as [Hrest Hall].
    rewrite Forall_forall in Hall.
    cbn [group_add].
    destruct (Z.ltb_spec y k0) as [Hlt|Hge].
    + cbn [group_get]. destruct (Z.eqb_spec k y) as [Eky|Hne]; [|reflexivity].
      destruct (Z.eqb_spec y k0) as [E|_]; [lia|].
      rewrite (group_get_not_in y rest); [reflexivity|].
      intros H. specialize (Hall y H). lia.
    + destruct (Z.eqb_spec y k0) as [Eyk|Hne].
      * cbn [group_get]. rewrite Eyk, Z.eqb_refl.
        destruct (k =? k0); reflexivity.
      * cbn [group_get]. rewrite (IH Hrest).
        destruct (Z.eqb_spec y k0) as [E|_]; [congruence|].
        destruct (Z.eqb_spec k y) as [Eky|Hky];
          destruct (Z.eqb_spec k k0) as [Ek|Hk]; try reflexivity.
        congruence.
Qed.

Lemma values_of_year_snoc (k : Z) (seen : list observation) (o : observation) :
  values_of_year k (seen ++ [o])%list =
  (values_of_year k seen ++ (if year o =? k then [value o] else []))%list.
Proof.
  unfold values_of_year. rewrite filter_app, map_app. simpl.
  destruct (year o =? k); reflexivity.
Qed.

Lemma groups_of_step (g : list (Z * list float)) (seen : list observation)
    (o : observation) :
  groups_of g seen ->
  groups_of (group_add (year o) (value o) g) (seen ++ [o])%list.
Proof.
  intros [Hs Hget]. split; [apply group_add_sorted; exact Hs|].
  intros k. rewrite (group_get_add _ _ _ _ Hs), values_of_year_snoc.
  rewrite (Z.eqb_sym (year o) k).
  destruct (Z.eqb_spec k (year o)) as [->|Hne].
  - rewrite Hget. destruct (values_of_year (year o) seen); reflexivity.
  - rewrite app_nil_r. apply Hget.
Qed.

Lemma groups_of_fold (rows : list observation) :
  forall g seen, groups_of g seen ->
    groups_of (fold_left (fun groups o => group_add (year o) (value o) groups) rows g)
              (seen ++ rows)%list.
Proof.
  induction rows as [|o rows IH]; intros g seen H; simpl.
  - rewrite app_nil_r. exact H.
  - replace (seen ++ o :: rows)%list with ((seen ++ [o]) ++ rows)%list
      by (rewrite <- app_assoc; reflexivity).
    apply IH. apply groups_of_step. exact H.
Qed.

Lemma groupby_year_groups (rows : list observation) :
  groups_of (groupby_year rows) rows.
Proof.
  apply (groups_of_fold rows [] []). split; [constructor|]. intros k. reflexivity.
Qed.

Lemma sort_values_year_sorted (l : list yearly_point) :
  StronglySorted Z.lt (map yp_year l) -> sort_values_year l = l.
Proof.
  induction l as [|p l IH]; simpl; intros Hs; [reflexivity|].
  apply StronglySorted_inv in Hs as [Hl Hall].
  unfold sort_values_year in *. simpl. rewrite (IH Hl).
  destruct l as [|q tl]; [reflexivity|]. simpl.
  apply Forall_inv in Hall.
  destruct (Z.leb_spec (yp_year p) (yp_year q)); [reflexivity | lia].
Qed.

Lemma values_of_year_nonempty (k : Z) (rows : list observation) :
  values_of_year k rows <> [] <-> exists o, In o rows /\ year o = k.
Proof.
  unfold values_of_year. split.
  - destruct (filter (fun o => year o =? k) rows) as [|o l] eqn:E;
      [intros H; exfalso; apply H; reflexivity|].
    intros _. assert (Hin : In o (filter (fun o => year o =? k) rows))
      by (rewrite E; left; reflexivity).
    apply filter_In in Hin as [Hin Hy]. exists o. split; [exact Hin | lia].
  - intros [o [Hin Hy]] H.
    assert (Hv : In (value o) (map value (filter (fun o => year o =? k) rows))).
    { apply in_map. apply filter_In. split; [exact Hin | lia]. }
    rewrite H in Hv. exact Hv.
Qed.

Section AggregatorFacts.
Variable mean : list float -> float.

Lemma aggregate_groups (rows : list observation) :
  aggregate mean rows =
  map (fun g => mkPoint (fst g) (mean (snd g))) (groupby_year rows).
Proof.
  unfold aggregate. apply sort_values_year_sorted.
  rewrite map_map. simpl.
  apply (groupby_year_groups rows).
Qed.

Lemma aggregate_years (rows : list observation) :
  map yp_year (aggregate mean rows) = map fst (groupby_year rows).
Proof. rewrite aggregate_groups, map_map. reflexivity. Qed.

Lemma aggregate_point (rows : list observation) (p : yearly_point) :
  In p (aggregate mean rows) ->
  values_of_year (yp_year p) rows <> [] /\
  yp_value p = mean (values_of_year (yp_year p) rows).
Proof.
  rewrite aggregate_groups. intros Hin.
  apply in_map_iff in Hin as [[k vs] [<- Hin]]. simpl.
  destruct (groupby_year_groups rows) as [Hs Hget].
  pose proof (group_get_in _ _ _ Hs Hin) as Hk. rewrite Hget in Hk.
  destruct (values_of_year k rows) as [|x l] eqn:E; [discriminate Hk|].
  injection Hk as <-. split; [discriminate | reflexivity].
Qed.

Lemma aggregate_year_in (rows : list observation) (y : Z) :
  In y (map yp_year (aggregate mean rows)) <-> exists o, In o rows /\ year o = y.
Proof.
  rewrite aggregate_years, group_get_keys, <- values_of_year_nonempty.
  destruct (groupby_year_groups rows) as [_ Hget]. rewrite Hget.
  destruct (values_of_year y rows); simpl; split.
  - intros [vs H]. discriminate H.
  - congruence.
  - discriminate.
  - eauto.
Qed.
End AggregatorFacts.


(** NaN values are not counted and not added. *)
Lemma mean_step_skips_nan (vs : list float) (acc : float * float * float) :
  fold_left mean_step vs acc =
  fold_left mean_step (filter (fun v => negb (PrimFloat.is_nan v)) vs) acc.
Proof.
  revert acc. induction vs as [|v vs IH]; intros acc; [reflexivity|].
  cbn [fold_left filter]. destruct (PrimFloat.is_nan v) eqn:E; cbn [negb].
  - replace (mean_step acc v) with acc; [apply IH|].
    unfold mean_step. destruct acc as [[sumx compensation] nobs]. rewrite E.
    reflexivity.
  - cbn [fold_left]. apply IH.
Qed.

Lemma group_mean_skips_nan (vs : list float) :
  group_mean vs = group_mean (filter (fun v => negb (PrimFloat.is_nan v)) vs).
Proof. unfold group_mean. rewrite mean_step_skips_nan. reflexivity. Qed.

(** The mean of pandas on some groups: 10 and 20 give 15; 0.1, 0.2 and 0.3
    give the float under 0.2, where the sum without compensation over the
    count gives the second float above 0.2; a NaN is passed over; no value,
    or NaN values only, give a NaN; an infinity gives that infinity. *)
#[local] Set Warnings "-inexact-float".
Example group_mean_values :
  group_mean [10; 20]%float = 15%float /\
  group_mean [40]%float = 40%float /\
  group_mean [0.1; 0.2; 0.3]%float = 0.19999999999999998%float /\
  PrimFloat.div (fold_left PrimFloat.add [0.1; 0.2; 0.3]%float f0) 3%float
  = 0.20000000000000004%float /\
  group_mean [10; PrimFloat.nan; 20]%float = 15%float /\
  PrimFloat.is_nan (group_mean []) = true /\
  PrimFloat.is_nan (group_mean [PrimFloat.nan]) = true /\
  group_mean [1; PrimFloat.infinity]%float = PrimFloat.infinity.
Proof. vm_compute. repeat split. Qed.
#[local] Set Warnings "inexact-float".


(** Two rows of one year with values 10 and 20 and no breakdown filter give
    one point of value 15; with the later bound of the range before the
    first year nothing is left. *)
Example df_yearly_mean_of_two :
  df_yearly group_mean [obs_2015_f; obs_2010; obs_2015_m]
    "Under-five mortality rate" ALL_BREAKDOWNS (2000, 2020)
  = [mkPoint 2010 40%float; mkPoint 2015 15%float] /\
  df_yearly group_mean [obs_2015_f; obs_2010; obs_2015_m]
    "Under-five mortality rate" "SEX – Male" (2000, 2020)
  = [mkPoint 2015 20%float] /\
  df_yearly group_mean [obs_2015_f; obs_2010; obs_2015_m]
    "Under-five mortality rate" ALL_BREAKDOWNS (1990, 2000)
  = [].
Proof. repeat split. Qed.

Lemma show_selection_no_data_witness :
  df_yearly group_mean [obs_2015_f; obs_2010; obs_2015_m]
    "Under-five mortality rate" ALL_BREAKDOWNS (1990, 2000) = [] /\
  forall (fmt : formatters),
    (forall s : app_state,
       show_selection fmt group_mean [obs_2015_f; obs_2010; obs_2015_m]
         "Under-five mortality rate" ALL_BREAKDOWNS (1990, 2000) s
       = (mkApp (page s ++ [st_warning NO_DATA])%list
                (var_trend_info s) (var_narrative s), Stopped)) /\
    show_selection fmt group_mean [obs_2015_f; obs_2010; obs_2015_m]
      "Under-five mortality rate" ALL_BREAKDOWNS (1990, 2000) fresh
    = (mkApp [st_warning NO_DATA] None None, Stopped).
Proof.
  split; [reflexivity|].
  apply (show_selection_no_data group_mean [obs_2015_f; obs_2010; obs_2015_m]
           "Under-five mortality rate" ALL_BREAKDOWNS (1990, 2000)).
  reflexivity.
Defined.

(** * Further properties of the code *)

(** ** Trend classifier: what it reads *)

Lemma last_snoc {A : Type} (l : list A) (q d : A) : last (l ++ [q])%list d = q.
Proof.
  induction l as [|x l IH]; [reflexivity|].
  simpl. destruct (l ++ [q])%list eqn:E; [destruct l; discriminate E|].
  exact IH.
Qed.

(** X1. The classifier reads the first and the last row only: the rows in
    between change no field of the summary. *)
Theorem classify_trend_ignores_middle
    (p q : yearly_point) (middle : list yearly_point) :
  classify_trend (p :: middle ++ [q])%list = classify_trend [p; q].
Proof.
  rewrite !classify_trend_cons. rewrite last_snoc. reflexivity.
Qed.

(** X2. The classifier fails, with an [IndexError], on the empty frame and
    on no other; the label of a summary is one of the four texts. *)
Theorem classify_trend_labels :
  (forall l, classify_trend l = None <-> l = []) /\
  (forall l t, classify_trend l = Some t ->
     label t = "increasing" \/ label t = "decreasing" \/
     label t = "relatively stable" \/ label t = "uncertain").
Proof.
  split.
  - intros [|p ps]; split; intros H; try reflexivity; try discriminate H.
    rewrite classify_trend_cons in H. discriminate H.
  - intros [|p ps] t H; [discriminate H|].
    rewrite classify_trend_cons in H. injection H as <-.
    cbn [label]. unfold trend_label.
    destruct (is_zero (yp_value p)); [auto|].
    match goal with |- context [PrimFloat.ltb f10 ?x] =>
      destruct (PrimFloat.ltb f10 x); [auto|];
      destruct (PrimFloat.ltb x fm10); auto end.
Qed.

(** ** From the filters to the summary *)

Lemma sorted_years_first_last (p : yearly_point) (ps : list yearly_point) :
  StronglySorted Z.lt (map yp_year (p :: ps)) ->
  forall q, In q (p :: ps) ->
    yp_year p <= yp_year q <= yp_year (last ps p).
Proof.
  revert p. induction ps as [|r ps IH]; intros p Hs q Hin.
  - destruct Hin as [<-|[]]. simpl. lia.
  - simpl in Hs. apply StronglySorted_inv in Hs as [Hrest Hall].
    pose proof (Forall_inv Hall) as Hpr.
    assert (Hlast : last (r :: ps) p = last ps r).
    { destruct ps as [|a ps]; [reflexivity|].
      change (last (a :: ps) p = last (a :: ps) r). apply last_cons_default. }
    rewrite Hlast.
    assert (Hr : yp_year r <= yp_year (last ps r)).
    { apply (IH r Hrest r). left. reflexivity. }
    destruct Hin as [<-|Hin]; [lia|].
    specialize (IH r Hrest q Hin). lia.
Qed.

Lemma last_in {A : Type} (p : A) (ps : list A) : In (last ps p) (p :: ps).
Proof.
  revert p. induction ps as [|r ps IH]; intros p; [left; reflexivity|].
  right. destruct ps as [|a ps]; [left; reflexivity|].
  change (In (last (a :: ps) p) (r :: a :: ps)).
  rewrite (last_cons_default ps a p r). apply IH.
Qed.

Section PipelineFacts.
Variable mean : list float -> float.
Variable df : list observation.
Variables selected_indicator selected_breakdown : string.
Variable year_range : Z * Z.

Let rows := apply_filters df selected_indicator selected_breakdown year_range.
Let out := df_yearly mean df selected_indicator selected_breakdown year_range.

Lemma df_yearly_sorted : StronglySorted Z.lt (map yp_year out).
Proof.
  unfold out, df_yearly. rewrite aggregate_years. apply groupby_year_groups.
Qed.

Lemma rows_in_range (o : observation) :
  In o rows -> fst year_range <= year o <= snd year_range.
Proof.
  unfold rows. rewrite apply_filters_filter, filter_In, selectedb_spec.
  intros [_ [_ [H _]]]. exact H.
Qed.

Lemma df_yearly_point_year (p : yearly_point) :
  In p out -> exists o, In o rows /\ year o = yp_year p.
Proof.
  intros Hin. apply (aggregate_year_in mean rows). apply in_map. exact Hin.
Qed.

Lemma df_yearly_covers (o : observation) :
  In o rows -> exists p, In p out /\ yp_year p = year o.
Proof.
  intros Hin.
  assert (H : In (year o) (map yp_year out)).
  { apply (aggregate_year_in mean rows). eauto. }
  apply in_map_iff in H as [p [Hp Hin']]. eauto.
Qed.

(** The first and the last row of the aggregated frame hold the least and
    the greatest year of the filtered rows. *)
Lemma df_yearly_ends (p : yearly_point) (ps : list yearly_point) :
  out = p :: ps ->
  (forall o, In o rows -> yp_year p <= year o <= yp_year (last ps p)) /\
  (exists o, In o rows /\ year o = yp_year p) /\
  (exists o, In o rows /\ year o = yp_year (last ps p)) /\
  fst year_range <= yp_year p /\ yp_year (last ps p) <= snd year_range.
Proof.
  intros E. pose proof df_yearly_sorted as Hs. rewrite E in Hs.
  assert (Hfirst : exists o, In o rows /\ year o = yp_year p).
  { apply df_yearly_point_year. rewrite E. left. reflexivity. }
  assert (Hlast : exists o, In o rows /\ year o = yp_year (last ps p)).
  { apply df_yearly_point_year. rewrite E. apply last_in. }
  split; [|split; [exact Hfirst|split; [exact Hlast|]]].
  - intros o Hin. destruct (df_yearly_covers o Hin) as [q [Hq <-]].
    rewrite E in Hq. apply (sorted_years_first_last p ps Hs q Hq).
  - destruct Hfirst as [o1 [H1 <-]]. destruct Hlast as [o2 [H2 <-]].
    pose proof (rows_in_range o1 H1). pose proof (rows_in_range o2 H2). lia.
Qed.
End PipelineFacts.

(** X3. On the aggregated frame of a selection the summary compares the
    earliest year that has a filtered row with the latest one.  There are
    two filtered rows, every filtered row having its year between theirs and
    both years lying in the selected range, such that the start year and the
    end year of the summary are the years of these two rows as read back
    from the frame, where they are held as floats: the years themselves when
    the selected range lies within 2^53 in size. *)
Theorem classify_trend_spans_selection
    (mean : list float -> float) (df : list observation)
    (selected_indicator selected_breakdown : string) (year_range : Z * Z)
    (t : trend_info) :
  classify_trend (df_yearly mean df selected_indicator selected_breakdown year_range)
  = Some t ->
  let rows := apply_filters df selected_indicator selected_breakdown year_range in
  exists o1 o2,
    In o1 rows /\ In o2 rows /\
    (forall o, In o rows -> year o1 <= year o <= year o2) /\
    fst year_range <= year o1 /\ year o2 <= snd year_range /\
    start_year t = year_of_row (year o1) /\
    end_year t = year_of_row (year o2) /\
    (- 2 ^ 53 < fst year_range -> snd year_range < 2 ^ 53 ->
     start_year t = year o1 /\ end_year t = year o2).
Proof.
  intros H rows.
  destruct (df_yearly mean df selected_indicator selected_breakdown year_range)
    as [|p ps] eqn:E; [discriminate H|].
  rewrite classify_trend_cons in H. injection H as <-. cbn [start_year end_year].
  destruct (df_yearly_ends mean df _ _ _ p ps E)
    as [Hall [[o1 [Hin1 Hy1]] [[o2 [Hin2 Hy2]] [Hlo Hhi]]]].
  exists o1, o2. rewrite Hy1, Hy2.
  split; [exact Hin1|]. split; [exact Hin2|]. split; [exact Hall|].
  split; [exact Hlo|]. split; [exact Hhi|].
  split; [reflexivity|]. split; [reflexivity|].
  intros Hmin Hmax. pose proof (Hall o1 Hin1) as Hspan. rewrite Hy1 in Hspan.
  split; apply year_of_row_exact; lia.
Qed.

Lemma classify_trend_spans_selection_witness :
  classify_trend (df_yearly group_mean [obs_2015_f; obs_2010; obs_2015_m]
                    "Under-five mortality rate" ALL_BREAKDOWNS (2000, 2020))
  = Some (mkTrend 2010 2015 40%float 15%float (-25)%float (Some (-62.5)%float)
                  "decreasing") /\
  let rows := apply_filters [obs_2015_f; obs_2010; obs_2015_m]
                "Under-five mortality rate" ALL_BREAKDOWNS (2000, 2020) in
  exists o1 o2,
    In o1 rows /\ In o2 rows /\
    (forall o, In o rows -> year o1 <= year o <= year o2) /\
    2000 <= year o1 /\ year o2 <= 2020 /\
    2010 = year_of_row (year o1) /\
    2015 = year_of_row (year o2) /\
    (- 2 ^ 53 < 2000 -> 2020 < 2 ^ 53 -> 2010 = year o1 /\ 2015 = year o2).
Proof.
  split; [reflexivity|].
  apply (classify_trend_spans_selection group_mean [obs_2015_f; obs_2010; obs_2015_m]
           "Under-five mortality rate" ALL_BREAKDOWNS (2000, 2020)
           (mkTrend 2010 2015 40%float 15%float (-25)%float (Some (-62.5)%float)
                    "decreasing")).
  reflexivity.
Defined.

(** X4. On the aggregated frame of a selection the metrics show the latest
    year that has a filtered row, read back from the frame, where it is held
    as a float, so the year itself when it is under 2^53 in size, with the
    mean, as pandas computes it, of the values of the filtered rows of that
    year; the year and the value the summary ends on are the same. *)
Theorem kpis_latest_of_selection
    (df : list observation)
    (selected_indicator selected_breakdown : string) (year_range : Z * Z)
    (k : kpi) :
  kpis (df_yearly group_mean df selected_indicator selected_breakdown year_range)
  = Some k ->
  let rows := apply_filters df selected_indicator selected_breakdown year_range in
  exists o,
    In o rows /\
    (forall o', In o' rows -> year o' <= year o) /\
    latest_year k = year_of_row (year o) /\
    (Z.abs (year o) < 2 ^ 53 -> latest_year k = year o) /\
    latest_value k = group_mean (values_of_year (year o) rows) /\
    (exists t,
       classify_trend
         (df_yearly group_mean df selected_indicator selected_breakdown year_range)
       = Some t /\ end_year t = latest_year k /\ end_val t = latest_value k).
Proof.
  intros H rows.
  destruct (df_yearly group_mean df selected_indicator selected_breakdown year_range)
    as [|p ps] eqn:E; [discriminate H|].
  assert (Hk : latest_year k = year_of_row (yp_year (last ps p)) /\
               latest_value k = yp_value (last ps p)).
  { unfold kpis in H. rewrite iloc_last in H.
    destruct (1 <? List.length (p :: ps))%nat.
    - destruct (iloc (p :: ps) (-2)); [|discriminate H].
      injection H as <-. split; reflexivity.
    - injection H as <-. split; reflexivity. }
  destruct Hk as [Hy Hv]. rewrite Hy, Hv.
  destruct (df_yearly_ends group_mean df _ _ _ p ps E)
    as [Hall [_ [[o [Hin Hyo]] _]]].
  exists o. rewrite <- Hyo.
  split; [exact Hin|].
  split; [intros o' Hin'; rewrite Hyo; apply (Hall o' Hin')|].
  split; [reflexivity|].
  split; [intros Hsmall; apply year_of_row_exact; exact Hsmall|].
  split.
  - assert (Hp : In (last ps p)
             (df_yearly group_mean df selected_indicator selected_breakdown
                year_range)).
    { rewrite E. apply last_in. }
    rewrite Hyo. apply (aggregate_point group_mean _ _ Hp).
  - rewrite classify_trend_cons. cbv zeta. eexists. split; [reflexivity|].
    cbn [end_year end_val]. rewrite Hyo. split; reflexivity.
Qed.

Lemma kpis_latest_of_selection_witness :
  kpis (df_yearly group_mean [obs_2015_f; obs_2010; obs_2015_m]
          "Under-five mortality rate" ALL_BREAKDOWNS (2000, 2020))
  = Some (mkKpi 2015 15%float (Some (-25)%float) (Some (-62.5)%float)) /\
  let rows := apply_filters [obs_2015_f; obs_2010; obs_2015_m]
                "Under-five mortality rate" ALL_BREAKDOWNS (2000, 2020) in
  exists o,
    In o rows /\
    (forall o', In o' rows -> year o' <= year o) /\
    2015 = year_of_row (year o) /\
    (Z.abs (year o) < 2 ^ 53 -> 2015 = year o) /\
    15%float = group_mean (values_of_year (year o) rows) /\
    (exists t,
       classify_trend (df_yearly group_mean [obs_2015_f; obs_2010; obs_2015_m]
                         "Under-five mortality rate" ALL_BREAKDOWNS (2000, 2020))
       = Some t /\ end_year t = 2015 /\ end_val t = 15%float).
Proof.
  split; [reflexivity|].
  apply (kpis_latest_of_selection [obs_2015_f; obs_2010; obs_2015_m]
           "Under-five mortality rate" ALL_BREAKDOWNS (2000, 2020)
           (mkKpi 2015 15%float (Some (-25)%float) (Some (-62.5)%float))).
  reflexivity.
Defined.

(** ** Narrative of a classified frame *)

Lemma string_app_assoc (a b c : string) : (a ++ b) ++ c = a ++ b ++ c.
Proof. induction a as [|x a IH]; [reflexivity|]. simpl. rewrite IH. reflexivity. Qed.

Lemma string_app_nil_r (a : string) : a ++ "" = a.
Proof. induction a as [|x a IH]; [reflexivity|]. simpl. rewrite IH. reflexivity. Qed.

(** Splits a chain of appends at the part [P]. *)
Ltac split_chain P L k :=
  lazymatch L with
  | P ++ ?R => k EmptyString R
  | ?x ++ ?rest => split_chain P rest ltac:(fun b r => k (x ++ b) r)
  end.

Ltac quote_part :=
  lazymatch goal with
  | |- exists before after, ?L = before ++ ?P ++ after =>
      split_chain P L ltac:(fun b r => exists b, r);
      rewrite ?string_app_assoc; reflexivity
  end.

(** X5. The narrative of a classified frame, from the first and the last
    row of the frame.  The years are those of the two rows as read back from
    the frame, the values are printed by [str(round(x, 2))] and the percent
    change by the format [.1f], both of them Python's and taken as given.
    When the first value is zero the narrative is the sentence without a
    percentage.  Otherwise it is the sentence of the label: "increased" when
    the percent change is above 10, "decreased" when it is below -10 and
    "stayed relatively stable" in the other cases, each quoting the percent
    change as "about ...%". *)
Theorem narrative_of_classified
    (fmt : formatters) (name : string) (p : yearly_point) (ps : list yearly_point) :
  let q := last ps p in
  let y1 := str_int (year_of_row (yp_year p)) in
  let y2 := str_int (year_of_row (yp_year q)) in
  let v1 := str_round2 fmt (yp_value p) in
  let v2 := str_round2 fmt (yp_value q) in
  let pc :=
    PrimFloat.mul
      (PrimFloat.div (PrimFloat.sub (yp_value q) (yp_value p)) (yp_value p)) f100 in
  let pct_txt := "about " ++ fmt_1f fmt pc ++ "%" in
  exists t, classify_trend (p :: ps) = Some t /\
    (is_zero (yp_value p) = true ->
     make_trend_narrative fmt name t =
       "From " ++ y1 ++ " to " ++ y2 ++
       ", this indicator changed from " ++ v1 ++ " to " ++ v2 ++ ". " ++
       "More detailed context is needed to interpret whether this is good or bad for Botswana.") /\
    (is_zero (yp_value p) = false ->
     percent_change t = Some pc /\
     (PrimFloat.ltb f10 pc = true ->
      make_trend_narrative fmt name t =
        "Between " ++ y1 ++ " and " ++ y2 ++
        ", this indicator increased " ++
        "from " ++ v1 ++ " to " ++ v2 ++ ", a change of " ++ pct_txt ++ ". " ++
        "This suggests a worsening of the measured burden if higher values are harmful, " ++
        "or improvement if the indicator tracks coverage or access.") /\
     (PrimFloat.ltb f10 pc = false -> PrimFloat.ltb pc fm10 = true ->
      make_trend_narrative fmt name t =
        "Between " ++ y1 ++ " and " ++ y2 ++
        ", this indicator decreased " ++
        "from " ++ v1 ++ " to " ++ v2 ++ ", a change of " ++ pct_txt ++ ". " ++
        "For outcomes where high values are harmful (like deaths or mortality), " ++
        "this pattern is generally positive.") /\
     (PrimFloat.ltb f10 pc = false -> PrimFloat.ltb pc fm10 = false ->
      make_trend_narrative fmt name t =
        "From " ++ y1 ++ " to " ++ y2 ++
        ", this indicator stayed relatively stable " ++
        "around " ++ v2 ++ ", with " ++ pct_txt ++ " change overall. " ++
        "This may mean that major shifts in this health area have not yet occurred.")).
Proof.
  intros q y1 y2 v1 v2 pc pct_txt.
  rewrite classify_trend_cons. cbv zeta. eexists. split; [reflexivity|].
  split; intros Hz; rewrite Hz.
  - reflexivity.
  - split; [reflexivity|].
    unfold make_trend_narrative.
    cbn [label percent_change start_year end_year start_val end_val].
    unfold trend_label. fold q. fold pc.
    split; [|split].
    + intros H1. rewrite H1.
      change (String.eqb "increasing" "increasing") with true. reflexivity.
    + intros H1 H2. rewrite H1, H2.
      change (String.eqb "decreasing" "increasing") with false.
      change (String.eqb "decreasing" "decreasing") with true. reflexivity.
    + intros H1 H2. rewrite H1, H2.
      change (String.eqb "relatively stable" "increasing") with false.
      change (String.eqb "relatively stable" "decreasing") with false.
      change (String.eqb "relatively stable" "relatively stable") with true.
      reflexivity.
Qed.

(** With Python's formatting of the values at hand: a frame going from 40
    in 2010 to 15 in 2015. *)
Example narrative_of_decrease :
  forall fmt name,
    str_round2 fmt 40%float = "40.0" -> str_round2 fmt 15%float = "15.0" ->
    fmt_1f fmt (-62.5)%float = "-62.5" ->
    exists t, classify_trend [mkPoint 2010 40%float; mkPoint 2015 15%float] = Some t /\
      make_trend_narrative fmt name t =
        "Between 2010 and 2015, this indicator decreased from 40.0 to 15.0, a change of about -62.5%. For outcomes where high values are harmful (like deaths or mortality), this pattern is generally positive.".
Proof.
  intros fmt name H1 H2 H3.
  exists (mkTrend 2010 2015 40%float 15%float (-25)%float (Some (-62.5)%float)
                  "decreasing").
  split; [reflexivity|].
  unfold make_trend_narrative.
  cbn [label percent_change start_year end_year start_val end_val].
  rewrite H1, H2, H3. reflexivity.
Qed.

(** ** Breakdown labels and the all-breakdowns entry *)

Lemma has_byte_app (c : ascii) (a b : string) :
  has_byte c (a ++ b) = (has_byte c a || has_byte c b)%bool.
Proof.
  induction a as [|x a IH]; [reflexivity|].
  simpl. rewrite IH. apply Bool.orb_assoc.
Qed.

Lemma make_observation_breakdown_dash (r : raw_row) (y : Z) (v : float) :
  has_byte (ascii_of_nat 226) (breakdown (make_observation r y v)) = true.
Proof.
  cbn [breakdown make_observation]. rewrite !has_byte_app.
  change (has_byte (ascii_of_nat 226) separator) with true.
  rewrite Bool.orb_true_r. reflexivity.
Qed.

(** X6. The breakdown of a cleaned row holds an en dash, which the
    all-breakdowns entry of the select box does not: no cleaned row has that
    entry as its breakdown, so choosing the breakdown of a cleaned row always
    filters by it. *)
Theorem cleaned_breakdown_is_not_all_breakdowns
    (to_int : cell -> option Z) (to_float : cell -> option float)
    (df_raw : list raw_row) (df : list observation) (o : observation) :
  clean_who_botswana to_int to_float df_raw = Ok df -> In o df ->
  breakdown o <> ALL_BREAKDOWNS /\
  forall selected_indicator year_range o',
    In o' (apply_filters df selected_indicator (breakdown o) year_range) ->
    breakdown o' = breakdown o.
Proof.
  intros Hok Hin.
  destruct (clean_ok_in _ _ _ _ _ Hok Hin) as [r [y [v [_ [_ [_ ->]]]]]].
  assert (Hne : breakdown (make_observation r y v) <> ALL_BREAKDOWNS).
  { intros E. pose proof (make_observation_breakdown_dash r y v) as H.
    rewrite E in H. discriminate H. }
  split; [exact Hne|].
  intros ind yr o' Ho'. rewrite apply_filters_filter, filter_In, selectedb_spec in Ho'.
  destruct Ho' as [_ [_ [_ [E|E]]]]; [contradiction | exact E].
Qed.

Lemma cleaned_breakdown_is_not_all_breakdowns_witness :
  clean_who_botswana plain_to_int plain_to_float [row_metadata; row_ok; row_no_value]
  = Ok [make_observation row_ok 2015 40%float] /\
  In (make_observation row_ok 2015 40%float) [make_observation row_ok 2015 40%float] /\
  breakdown (make_observation row_ok 2015 40%float) <> ALL_BREAKDOWNS /\
  forall selected_indicator year_range o',
    In o' (apply_filters [make_observation row_ok 2015 40%float] selected_indicator
             (breakdown (make_observation row_ok 2015 40%float)) year_range) ->
    breakdown o' = breakdown (make_observation row_ok 2015 40%float).
Proof.
  split; [reflexivity|]. split; [left; reflexivity|].
  apply (cleaned_breakdown_is_not_all_breakdowns plain_to_int plain_to_float
           [row_metadata; row_ok; row_no_value]).
  - reflexivity.
  - left. reflexivity.
Defined.

(** ** Loading the data *)

(** X7. The loader never raises for a failed read: it reports it and
    returns the empty frame.  Whenever it returns, the frame is empty exactly
    when an error was reported, and one error at most is reported.  It
    raises exactly when the read succeeds and the cleaner raises, and then
    nothing was reported. *)
Theorem load_data_outcomes
    (read_csv : string -> string + list raw_row)
    (to_int : cell -> option Z) (to_float : cell -> option float) (path : string) :
  (forall e, read_csv path = inl e ->
     exists msg, load_data read_csv to_int to_float path = ([st_error msg], Ok [])) /\
  (forall events df, load_data read_csv to_int to_float path = (events, Ok df) ->
     (df = [] <-> events <> []) /\ (List.length events <= 1)%nat) /\
  (forall events x, load_data read_csv to_int to_float path = (events, Raise x) <->
     events = [] /\
     exists raw, read_csv path = inr raw /\
                 clean_who_botswana to_int to_float raw = Raise x).
Proof.
  unfold load_data. split; [|split].
  - intros e ->. eexists. reflexivity.
  - intros events df.
    destruct (read_csv path) as [e|raw].
    + intros H. injection H as <- <-. split; [|simpl; lia].
      split; [discriminate | reflexivity].
    + destruct (clean_who_botswana to_int to_float raw) as [[|o os]|x];
        intros H; try discriminate H; injection H as <- <-.
      * split; [|simpl; lia]. split; [discriminate | reflexivity].
      * split; [|simpl; lia]. split; [discriminate | intros H; exfalso; apply H; reflexivity].
  - intros events x. destruct (read_csv path) as [e|raw].
    + split; [discriminate|]. intros [_ [raw [H _]]]. discriminate H.
    + destruct (clean_who_botswana to_int to_float raw) as [[|o os]|x'] eqn:E.
      * split; [discriminate|]. intros [_ [raw' [H H']]].
        injection H as <-. congruence.
      * split; [discriminate|]. intros [_ [raw' [H H']]].
        injection H as <-. congruence.
      * split.
        -- intros H. injection H as <- <-. split; [reflexivity|]. eauto.
        -- intros [-> [raw' [H H']]]. injection H as <-. congruence.
Qed.

(** X8. The script goes on past its first guard only with a frame that has
    a row, read and cleaned from the data file, and with no error on the
    page; when it stops there, one error is on the page; it ends with an
    exception only when the cleaner raised, with nothing on the page. *)
Theorem startup_outcomes
    (read_csv : string -> string + list raw_row)
    (to_int : cell -> option Z) (to_float : cell -> option float) :
  match startup read_csv to_int to_float with
  | (events, Done df) =>
      df <> [] /\ events = [] /\
      exists raw, read_csv DATA_PATH = inr raw /\
                  clean_who_botswana to_int to_float raw = Ok df
  | (events, Stopped) =>
      (exists msg, events = [st_error msg]) /\
      (read_csv DATA_PATH = inr [] -> events = [st_error NO_VALID_ROWS])
  | (events, Raised x) =>
      events = [] /\
      exists raw, read_csv DATA_PATH = inr raw /\
                  clean_who_botswana to_int to_float raw = Raise x
  end.
Proof.
  unfold startup, load_data.
  destruct (read_csv DATA_PATH) as [e|raw] eqn:Er.
  - split; [eauto | discriminate].
  - destruct (clean_who_botswana to_int to_float raw) as [[|o os]|x] eqn:E.
    + split; [eauto | reflexivity].
    + split; [discriminate|]. split; [reflexivity|]. eauto.
    + split; [reflexivity|]. eauto.
Qed.

(** ** Search interest *)

Lemma filter_no_match {V : Type} (name : string) (cols : list (string * list V)) :
  str_mem name (map fst cols) = false ->
  filter (fun col => negb (String.eqb name (fst col))) cols = cols.
Proof.
  unfold str_mem. induction cols as [|c cols IH]; [reflexivity|].
  simpl. destruct (String.eqb name (fst c)); [discriminate|].
  simpl. intros H. rewrite (IH H). reflexivity.
Qed.

Lemma drop_column_absent {V : Type} (name : string) (f : trends_frame V) :
  ~ In name (map fst (tf_columns (drop_column name f))).
Proof.
  unfold drop_column. cbn [tf_columns]. intros Hin.
  apply in_map_iff in Hin as [col [Hname Hcol]].
  apply filter_In in Hcol as [_ Hcol].
  rewrite Hname, String.eqb_refl in Hcol. discriminate Hcol.
Qed.

Lemma str_mem_false (x : string) (l : list string) :
  str_mem x l = false -> ~ In x l.
Proof.
  unfold str_mem. intros H Hin.
  assert (existsb (String.eqb x) l = true).
  { apply existsb_exists. exists x. split; [exact Hin | apply String.eqb_refl]. }
  congruence.
Qed.

(** The three ways the lookup ends. *)
Lemma get_google_trends_cases
    (V : Type) (interest_over_time : string -> string -> string -> string + trends_frame V)
    (keyword geo timeframe : string) :
  let result := get_google_trends V interest_over_time keyword geo timeframe in
  (forall e, interest_over_time keyword geo timeframe = inl e ->
     exists msg, result = ([tr_warning msg], empty_frame)) /\
  (forall f, interest_over_time keyword geo timeframe = inr f ->
     fst result = [] /\
     tf_index (snd result) = tf_index f /\
     (frame_empty f = true -> snd result = f) /\
     (frame_empty f = false ->
      tf_columns (snd result)
      = filter (fun col => negb (String.eqb "isPartial" (fst col))) (tf_columns f))) /\
  (frame_empty (snd result) = false ->
   ~ In "isPartial" (map fst (tf_columns (snd result)))).
Proof.
  intros result. unfold result, get_google_trends.
  destruct (interest_over_time keyword geo timeframe) as [e|f].
  - split; [intros e' _; eexists; reflexivity|].
    split; [intros f H; discriminate H|].
    intros H. discriminate H.
  - split; [intros e H; discriminate H|].
    destruct (frame_empty f) eqn:Ef.
    + split.
      * intros f' H. injection H as <-. rewrite Ef.
        repeat split. discriminate.
      * cbn [snd]. rewrite Ef. discriminate.
    + destruct (str_mem "isPartial" (map fst (tf_columns f))) eqn:Em.
      * split.
        -- intros f' H. injection H as <-. rewrite Ef.
           repeat split. discriminate.
        -- intros _. apply drop_column_absent.
      * split.
        -- intros f' H. injection H as <-. rewrite Ef.
           split; [reflexivity|]. split; [reflexivity|].
           split; [discriminate|]. intros _. cbn [snd].
           symmetry. apply filter_no_match. exact Em.
        -- intros _. apply str_mem_false. exact Em.
Qed.

(** X9. The search-interest lookup never raises: a failed call gives one
    warning and the empty frame.  A frame that comes back empty is returned
    as it is; from any other frame exactly the columns labelled "isPartial"
    are left out, the other columns and the dates staying as they are, so a
    result that is not empty has no "isPartial" column. *)
Theorem get_google_trends_result
    (V : Type) (interest_over_time : string -> string -> string -> string + trends_frame V)
    (keyword geo timeframe : string) :
  let result := get_google_trends V interest_over_time keyword geo timeframe in
  (forall e, interest_over_time keyword geo timeframe = inl e ->
     exists msg, result = ([tr_warning msg], empty_frame)) /\
  (forall f, interest_over_time keyword geo timeframe = inr f ->
     fst result = [] /\
     tf_index (snd result) = tf_index f /\
     (frame_empty f = true -> snd result = f) /\
     (frame_empty f = false ->
      tf_columns (snd result)
      = filter (fun col => negb (String.eqb "isPartial" (fst col))) (tf_columns f))) /\
  (frame_empty (snd result) = false ->
   ~ In "isPartial" (map fst (tf_columns (snd result)))).
Proof. exact (get_google_trends_cases V interest_over_time keyword geo timeframe). Qed.

Lemma get_google_trends_columns
    (V : Type) (iot : string -> string -> string -> string + trends_frame V)
    (keyword geo timeframe : string) :
  let f := snd (get_google_trends V iot keyword geo timeframe) in
  frame_empty f = false -> exists c rest, tf_columns f = c :: rest.
Proof.
  intros f. unfold frame_empty.
  destruct (tf_index f); [discriminate|].
  destruct (tf_columns f) as [|c rest]; [discriminate|]. eauto.
Qed.

(** X10. The second tab never fails.  When the lookup fails it shows the
    header, the keyword line, the warning and the no-data note, and no
    chart; when the frame is not empty it charts its first column, which is
    not "isPartial". *)
Theorem show_trends_never_raises
    (V : Type) (interest_over_time : string -> string -> string -> string + trends_frame V)
    (selected_indicator : string) :
  let page := fst (show_trends V interest_over_time selected_indicator) in
  snd (show_trends V interest_over_time selected_indicator) = Ok tt /\
  (forall e,
     interest_over_time (search_keyword selected_indicator ++ " Botswana")
       "BW" "2018-01-01 2025-12-31" = inl e ->
     exists header line msg note,
       page = [tr_subheader header; tr_write line; tr_warning msg; tr_info note]) /\
  (forall title value_col f,
     In (tr_plotly_chart title value_col f) page ->
     value_col <> "isPartial" /\ frame_empty f = false /\
     exists data rest, tf_columns f = (value_col, data) :: rest).
Proof.
  intros page. unfold page, show_trends. clear page.
  pose proof (get_google_trends_cases V interest_over_time
                (search_keyword selected_indicator ++ " Botswana")
                "BW" "2018-01-01 2025-12-31") as [Hfail [Hok Hnone]].
  destruct (get_google_trends V interest_over_time
              (search_keyword selected_indicator ++ " Botswana")
              "BW" "2018-01-01 2025-12-31") as [warnings trends_df] eqn:Eg.
  cbn [fst snd] in Hfail, Hok, Hnone.
  assert (Hwarn : forall title value_col f,
            ~ In (tr_plotly_chart title value_col f)
                 ([tr_subheader "Google Search Interest in Related Topic (Botswana)";
                   tr_write ("Using keyword for Google Trends: **" ++
                             search_keyword selected_indicator ++ " Botswana**")]
                  ++ warnings)%list).
  { intros title value_col f Hin. apply in_app_or in Hin as [Hin|Hin].
    - destruct Hin as [H|[H|[]]]; discriminate H.
    - destruct (interest_over_time (search_keyword selected_indicator ++ " Botswana")
                  "BW" "2018-01-01 2025-12-31") as [e|f0] eqn:Ei.
      + destruct (Hfail e eq_refl) as [msg Hmsg]. injection Hmsg as -> _.
        destruct Hin as [H|[]]. discriminate H.
      + destruct (Hok f0 eq_refl) as [Hw _]. rewrite Hw in Hin. exact Hin. }
  destruct (frame_empty trends_df) eqn:Ee.
  - cbn [fst snd]. split; [reflexivity|]. split.
    + intros e He. destruct (Hfail e He) as [msg Hmsg]. injection Hmsg as -> _.
      do 4 eexists. reflexivity.
    + intros title value_col f Hin. exfalso.
      apply in_app_or in Hin as [Hin|Hin]; [exact (Hwarn _ _ _ Hin)|].
      destruct Hin as [H|[]]. discriminate H.
  - destruct (tf_columns trends_df) as [|[value_col data] rest] eqn:Ec.
    + exfalso. unfold frame_empty in Ee. rewrite Ec in Ee.
      destruct (tf_index trends_df); discriminate Ee.
    + cbn [fst snd]. split; [reflexivity|]. split.
      * intros e He. destruct (Hfail e He) as [msg Hmsg]. injection Hmsg as _ ->.
        discriminate Ee.
      * intros title vc f Hin.
        apply in_app_or in Hin as [Hin|Hin]; [exfalso; exact (Hwarn _ _ _ Hin)|].
        destruct Hin as [H|[H|[]]]; [|discriminate H].
        injection H as _ <- <-.
        split; [|split; [exact Ee | eauto]].
        intros ->. apply (Hnone eq_refl). left. reflexivity.
Qed.

(** ** The keyword of the search *)

Lemma before_prefix (s : string) (sep : ascii) : exists rest, s = before s sep ++ rest.
Proof.
  induction s as [|c s [rest IH]]; [exists ""; reflexivity|].
  simpl. destruct (Ascii.eqb c sep); [eexists; reflexivity|].
  exists rest. simpl. rewrite <- IH. reflexivity.
Qed.

Lemma before_has_no_sep (s : string) (sep : ascii) : has_byte sep (before s sep) = false.
Proof.
  induction s as [|c s IH]; [reflexivity|].
  simpl. destruct (Ascii.eqb c sep) eqn:E; [reflexivity|].
  simpl. rewrite E, IH. reflexivity.
Qed.

Lemma before_without_sep (s : string) (sep : ascii) :
  has_byte sep s = false -> before s sep = s.
Proof.
  induction s as [|c s IH]; [reflexivity|].
  simpl. destruct (Ascii.eqb c sep); [discriminate|].
  simpl. intros H. rewrite (IH H). reflexivity.
Qed.

Lemma has_byte_prefix (c : ascii) (a rest : string) :
  has_byte c (a ++ rest) = false -> has_byte c a = false.
Proof.
  rewrite has_byte_app. destruct (has_byte c a); [discriminate | reflexivity].
Qed.

Lemma take_chars_prefix (n : nat) (s : string) : exists rest, s = take_chars n s ++ rest.
Proof.
  revert n. induction s as [|c s IH]; intros n; [exists ""; reflexivity|].
  simpl. destruct (is_continuation c).
  - destruct (IH n) as [rest E]. exists rest. simpl. rewrite <- E. reflexivity.
  - destruct n as [|n]; [eexists; reflexivity|].
    destruct (IH n) as [rest E]. exists rest. simpl. rewrite <- E. reflexivity.
Qed.

Lemma take_chars_count (n : nat) (s : string) :
  (char_count (take_chars n s) <= n)%nat.
Proof.
  revert n. induction s as [|c s IH]; intros n; [simpl; lia|].
  simpl. destruct (is_continuation c) eqn:E.
  - simpl. rewrite E. apply IH.
  - destruct n as [|n]; [simpl; lia|].
    simpl. rewrite E. specialize (IH n). lia.
Qed.

Lemma take_chars_all (n : nat) (s : string) :
  (char_count s <= n)%nat -> take_chars n s = s.
Proof.
  revert n. induction s as [|c s IH]; intros n; [reflexivity|].
  simpl. destruct (is_continuation c).
  - intros H. rewrite (IH n H). reflexivity.
  - destruct n as [|n]; [lia|]. intros H. rewrite (IH n); [reflexivity | lia].
Qed.

(** X11. The keyword of the search is the start of the indicator name: it
    holds no comma and no opening parenthesis and has 80 characters at most;
    it is the whole name when the name has neither and is no longer than
    that. *)
Theorem search_keyword_shape (selected_indicator : string) :
  let keyword := search_keyword selected_indicator in
  (exists rest, selected_indicator = keyword ++ rest) /\
  has_byte "," keyword = false /\
  has_byte "(" keyword = false /\
  (char_count keyword <= 80)%nat /\
  (has_byte "," selected_indicator = false ->
   has_byte "(" selected_indicator = false ->
   (char_count selected_indicator <= 80)%nat ->
   keyword = selected_indicator).
Proof.
  intros keyword. unfold keyword, search_keyword. clear keyword.
  set (k1 := before selected_indicator ",").
  set (k2 := before k1 "(").
  destruct (before_prefix selected_indicator ",") as [r1 E1]. fold k1 in E1.
  destruct (before_prefix k1 "(") as [r2 E2]. fold k2 in E2.
  destruct (take_chars_prefix 80 k2) as [r3 E3].
  assert (Hcomma1 : has_byte "," k1 = false) by apply before_has_no_sep.
  assert (Hparen2 : has_byte "(" k2 = false) by apply before_has_no_sep.
  assert (Hcomma2 : has_byte "," k2 = false).
  { apply (has_byte_prefix _ k2 r2). rewrite <- E2. exact Hcomma1. }
  split; [|split; [|split; [|split]]].
  - exists (r3 ++ r2 ++ r1).
    rewrite <- string_app_assoc, <- E3, <- string_app_assoc, <- E2. exact E1.
  - apply (has_byte_prefix _ _ r3). rewrite <- E3. exact Hcomma2.
  - apply (has_byte_prefix _ _ r3). rewrite <- E3. exact Hparen2.
  - apply take_chars_count.
  - intros Hc Hp Hlen. unfold k2, k1.
    rewrite (before_without_sep _ _ Hc), (before_without_sep _ _ Hp).
    apply take_chars_all. exact Hlen.
Qed.

(** The keyword of a name with a parenthesis and commas. *)
Example search_keyword_tuberculosis :
  search_keyword "Tuberculosis (TB), incidence per 100,000" = "Tuberculosis ".
Proof. reflexivity. Qed.

(** ** Sidebar: the options of the select boxes *)

Lemma unique_in (x : string) (l : list string) : In x (unique l) <-> In x l.
Proof.
  induction l as [|y l IH]; [reflexivity|].
  simpl. rewrite filter_In, IH. split.
  - intros [H|[H _]]; auto.
  - intros [H|H]; [auto|].
    destruct (String.eqb_spec y x) as [E|Hne]; [auto|].
    right. split; [exact H | reflexivity].
Qed.

Lemma unique_nodup (l : list string) : NoDup (unique l).
Proof.
  induction l as [|y l IH]; [constructor|].
  simpl. constructor.
  - rewrite filter_In. intros [_ H]. rewrite String.eqb_refl in H. discriminate H.
  - apply NoDup_filter. exact IH.
Qed.

Lemma insert_sorted_in (x y : string) (l : list string) :
  In y (insert_sorted x l) <-> y = x \/ In y l.
Proof.
  induction l as [|z l IH]; simpl.
  - intuition.
  - destruct (String.leb x z); simpl; [intuition|]. rewrite IH. intuition.
Qed.

Lemma py_sorted_in (x : string) (l : list string) : In x (py_sorted l) <-> In x l.
Proof.
  induction l as [|y l IH]; [reflexivity|].
  unfold py_sorted in *. simpl. rewrite insert_sorted_in, IH. intuition.
Qed.

Lemma insert_sorted_nodup (x : string) (l : list string) :
  ~ In x l -> NoDup l -> NoDup (insert_sorted x l).
Proof.
  induction l as [|z l IH]; simpl; intros Hx Hl.
  - constructor; [tauto | constructor].
  - destruct (String.leb x z).
    + constructor; [simpl; tauto | exact Hl].
    + apply NoDup_cons_iff in Hl as [Hz Hl]. constructor.
      * rewrite insert_sorted_in. intros [E|H]; [subst; tauto | tauto].
      * apply IH; tauto.
Qed.

Lemma py_sorted_nodup (l : list string) : NoDup l -> NoDup (py_sorted l).
Proof.
  induction l as [|y l IH]; intros H; [constructor|].
  apply NoDup_cons_iff in H as [Hy Hl].
  unfold py_sorted in *. simpl. apply insert_sorted_nodup.
  - rewrite (py_sorted_in y l). exact Hy.
  - apply IH. exact Hl.
Qed.

Lemma leb_false_flip (x y : string) : String.leb x y = false -> String.leb y x = true.
Proof. destruct (String.leb_total x y) as [H|H]; congruence. Qed.

Lemma insert_sorted_sorted (x : string) (l : list string) :
  Sorted (fun a b => String.leb a b = true) l ->
  Sorted (fun a b => String.leb a b = true) (insert_sorted x l).
Proof.
  induction l as [|z l IH]; simpl; intros Hs.
  - repeat constructor.
  - destruct (String.leb x z) eqn:E.
    + constructor; [exact Hs | constructor; exact E].
    + apply Sorted_inv in Hs as [Hl Hhd]. constructor; [apply IH; exact Hl|].
      destruct l as [|w l]; simpl.
      * constructor. apply leb_false_flip. exact E.
      * apply HdRel_inv in Hhd.
        destruct (String.leb x w); constructor;
          [apply leb_false_flip; exact E | exact Hhd].
Qed.

Lemma py_sorted_sorted (l : list string) :
  Sorted (fun a b => String.leb a b = true) (py_sorted l).
Proof.
  induction l as [|y l IH]; [constructor|].
  unfold py_sorted in *. simpl. apply insert_sorted_sorted. exact IH.
Qed.

Lemma sorted_nodup_strict (l : list string) :
  Sorted (fun a b => String.leb a b = true) l -> NoDup l ->
  Sorted (fun a b => String.ltb a b = true) l.
Proof.
  induction l as [|x l IH]; intros Hs Hn; [constructor|].
  apply Sorted_inv in Hs as [Hl Hhd]. apply NoDup_cons_iff in Hn as [Hx Hn].
  constructor; [apply IH; assumption|].
  destruct l as [|y l]; constructor.
  apply HdRel_inv in Hhd. unfold String.leb in Hhd. unfold String.ltb.
  destruct (String.compare x y) eqn:E; try reflexivity; try discriminate Hhd.
  apply String.compare_eq_iff in E. exfalso. apply Hx. left. symmetry. exact E.
Qed.

(** X12. The indicator select box lists every indicator name of the cleaned
    frame once, in strictly ascending order, and nothing else; the breakdown
    select box lists the all-breakdowns entry first and then, once each and
    in strictly ascending order, the breakdowns of the rows of the selected
    indicator. *)
Theorem select_box_options (df : list observation) (selected_indicator : string) :
  (forall name, In name (indicator_names df) <->
     exists o, In o df /\ gho_display o = name) /\
  NoDup (indicator_names df) /\
  Sorted (fun a b => String.ltb a b = true) (indicator_names df) /\
  breakdown_options_display df selected_indicator
  = ALL_BREAKDOWNS :: breakdown_options df selected_indicator /\
  (forall b, In b (breakdown_options df selected_indicator) <->
     exists o, In o df /\ gho_display o = selected_indicator /\ breakdown o = b) /\
  NoDup (breakdown_options df selected_indicator) /\
  Sorted (fun a b => String.ltb a b = true) (breakdown_options df selected_indicator).
Proof.
  unfold indicator_names, breakdown_options, breakdown_options_display, df_ind_all.
  repeat split.
  - rewrite py_sorted_in, unique_in, in_map_iff. intros [o [H1 H2]]. eauto.
  - intros [o [H1 H2]]. rewrite py_sorted_in, unique_in, in_map_iff. eauto.
  - apply py_sorted_nodup, unique_nodup.
  - apply sorted_nodup_strict; [apply py_sorted_sorted|].
    apply py_sorted_nodup, unique_nodup.
  - rewrite py_sorted_in, unique_in, in_map_iff. intros [o [H1 H2]].
    apply filter_In in H2 as [H2 H3]. apply String.eqb_eq in H3. eauto.
  - intros [o [H1 [H2 H3]]]. rewrite py_sorted_in, unique_in, in_map_iff.
    exists o. split; [exact H3|]. apply filter_In. split; [exact H1|].
    apply String.eqb_eq. exact H2.
  - apply py_sorted_nodup, unique_nodup.
  - apply sorted_nodup_strict; [apply py_sorted_sorted|].
    apply py_sorted_nodup, unique_nodup.
Qed.

(** ** Sidebar: the stored breakdown *)

Lemma list_index_some (x : string) (l : list string) :
  str_mem x l = true ->
  exists i, list_index x l = Some i /\ nth_error l i = Some x /\
            (i < List.length l)%nat.
Proof.
  unfold str_mem. induction l as [|y l IH]; [discriminate|].
  simpl. destruct (String.eqb_spec x y) as [->|Hne].
  - intros _. exists O. repeat split. simpl. lia.
  - simpl. intros H. destruct (IH H) as [i [Hi [Hn Hlt]]].
    exists (S i). rewrite Hi. repeat split; [exact Hn | simpl; lia].
Qed.

Lemma str_mem_in (x : string) (l : list string) : str_mem x l = true <-> In x l.
Proof.
  unfold str_mem. rewrite existsb_exists. split.
  - intros [y [Hin E]]. apply String.eqb_eq in E. subst. exact Hin.
  - intros Hin. exists x. split; [exact Hin | apply String.eqb_refl].
Qed.

(** X13. The position handed to the breakdown select box is always a
    position of its list, and the lookup never fails: it is the position of
    the stored breakdown when that is in the list, and otherwise the first
    position, which holds the all-breakdowns entry. *)
Theorem default_breakdown_index_valid
    (ss : session_state) (df : list observation) (selected_indicator : string) :
  let options := breakdown_options_display df selected_indicator in
  exists i, default_breakdown_index ss options = Ok i /\
    (i < List.length options)%nat /\
    (forall v, ss_get "breakdown" ss = Some (SStr v) -> In v options ->
       nth_error options i = Some v) /\
    ((forall v, ss_get "breakdown" ss = Some (SStr v) -> ~ In v options) ->
       i = O /\ nth_error options i = Some ALL_BREAKDOWNS).
Proof.
  intros options. unfold options, breakdown_options_display.
  set (opts := breakdown_options df selected_indicator).
  unfold default_breakdown_index.
  destruct (ss_get "breakdown" ss) as [[v|r|]|] eqn:Eg.
  - destruct (str_mem v (ALL_BREAKDOWNS :: opts)) eqn:Em.
    + destruct (list_index_some _ _ Em) as [i [Hi [Hn Hlt]]]. rewrite Hi.
      exists i. split; [reflexivity|]. split; [exact Hlt|]. split.
      * intros v' H _. injection H as <-. exact Hn.
      * intros H. exfalso. apply (H v eq_refl). apply str_mem_in. exact Em.
    + exists O. split; [reflexivity|]. split; [simpl; lia|]. split.
      * intros v' H Hin. injection H as <-. apply str_mem_in in Hin. congruence.
      * intros _. split; reflexivity.
  - exists O. split; [reflexivity|]. split; [simpl; lia|]. split.
    + intros v H. discriminate H.
    + intros _. split; reflexivity.
  - exists O. split; [reflexivity|]. split; [simpl; lia|]. split.
    + intros v H. discriminate H.
    + intros _. split; reflexivity.
  - exists O. split; [reflexivity|]. split; [simpl; lia|]. split.
    + intros v H. discriminate H.
    + intros _. split; reflexivity.
Qed.

(** ** Sidebar: the year range *)

Lemma series_min_spec (l : list Z) :
  match series_min l with
  | None => l = []
  | Some m => In m l /\ forall x, In x l -> m <= x
  end.
Proof.
  induction l as [|x l IH]; [reflexivity|].
  simpl. destruct (series_min l) as [m|].
  - destruct IH as [Hin Hle]. split.
    + destruct (Z.min_spec x m) as [[_ ->]|[_ ->]]; auto.
    + intros y [<-|Hy]; [lia|]. specialize (Hle y Hy). lia.
  - subst l. split; [left; reflexivity|]. intros y [<-|[]]. lia.
Qed.

Lemma series_max_spec (l : list Z) :
  match series_max l with
  | None => l = []
  | Some m => In m l /\ forall x, In x l -> x <= m
  end.
Proof.
  induction l as [|x l IH]; [reflexivity|].
  simpl. destruct (series_max l) as [m|].
  - destruct IH as [Hin Hle]. split.
    + destruct (Z.max_spec x m) as [[_ ->]|[_ ->]]; auto.
    + intros y [<-|Hy]; [lia|]. specialize (Hle y Hy). lia.
  - subst l. split; [left; reflexivity|]. intros y [<-|[]]. lia.
Qed.

Lemma df_ind_all_in (df : list observation) (ind : string) (o : observation) :
  In o (df_ind_all df ind) <-> In o df /\ gho_display o = ind.
Proof. unfold df_ind_all. rewrite filter_In, String.eqb_eq. reflexivity. Qed.

(** The bounds of an indicator that has a row. *)
Lemma year_bounds_ok (df : list observation) (ind : string) (o0 : observation) :
  In o0 df -> gho_display o0 = ind ->
  exists lo hi, year_bounds df ind = Ok (lo, hi) /\
    (forall o, In o df -> gho_display o = ind -> lo <= year o <= hi) /\
    (exists o, In o df /\ gho_display o = ind /\ year o = lo) /\
    (exists o, In o df /\ gho_display o = ind /\ year o = hi).
Proof.
  intros Hin0 Hind0. unfold year_bounds.
  pose proof (series_min_spec (map year (df_ind_all df ind))) as Hmin.
  pose proof (series_max_spec (map year (df_ind_all df ind))) as Hmax.
  assert (Hne : map year (df_ind_all df ind) <> []).
  { intros E. assert (H : In (year o0) (map year (df_ind_all df ind))).
    { apply in_map. apply df_ind_all_in. auto. }
    rewrite E in H. exact H. }
  destruct (series_min (map year (df_ind_all df ind))) as [lo|]; [|contradiction].
  destruct (series_max (map year (df_ind_all df ind))) as [hi|]; [|contradiction].
  destruct Hmin as [Hlo_in Hlo]. destruct Hmax as [Hhi_in Hhi].
  exists lo, hi. split; [reflexivity|]. split; [|split].
  - intros o Hin Hind.
    assert (H : In (year o) (map year (df_ind_all df ind))).
    { apply in_map. apply df_ind_all_in. auto. }
    specialize (Hlo _ H). specialize (Hhi _ H). lia.
  - apply in_map_iff in Hlo_in as [o [Hy Hin]]. apply df_ind_all_in in Hin as [H1 H2].
    eauto.
  - apply in_map_iff in Hhi_in as [o [Hy Hin]]. apply df_ind_all_in in Hin as [H1 H2].
    eauto.
Qed.

(** The bounds, by the outcome of their computation. *)
Lemma year_bounds_cases (df : list observation) (selected_indicator : string) :
  match year_bounds df selected_indicator with
  | Ok (min_year, max_year) =>
      min_year <= max_year /\
      (forall o, In o df -> gho_display o = selected_indicator ->
         min_year <= year o <= max_year) /\
      (exists o, In o df /\ gho_display o = selected_indicator /\ year o = min_year) /\
      (exists o, In o df /\ gho_display o = selected_indicator /\ year o = max_year)
  | Raise _ =>
      (forall o, In o df -> gho_display o <> selected_indicator) /\
      ~ In selected_indicator (indicator_names df)
  end.
Proof.
  destruct (year_bounds df selected_indicator) as [[lo hi]|e] eqn:E.
  - assert (Hrow : exists o0, In o0 df /\ gho_display o0 = selected_indicator).
    { unfold year_bounds in E.
      destruct (df_ind_all df selected_indicator) as [|o0 l] eqn:Ed;
        [discriminate E|].
      exists o0. apply df_ind_all_in. rewrite Ed. left. reflexivity. }
    destruct Hrow as [o0 [H0 H0']].
    destruct (year_bounds_ok df selected_indicator o0 H0 H0')
      as [lo' [hi' [E' [Hall [Hlo Hhi]]]]].
    rewrite E in E'. injection E' as <- <-.
    split; [|auto]. destruct Hlo as [o [H1 [H2 H3]]]. specialize (Hall o H1 H2). lia.
  - assert (Hnone : forall o, In o df -> gho_display o <> selected_indicator).
    { intros o Hin Hind.
      destruct (year_bounds_ok df selected_indicator o Hin Hind) as [lo [hi [E' _]]].
      rewrite E in E'. discriminate E'. }
    split; [exact Hnone|].
    unfold indicator_names. rewrite py_sorted_in, unique_in, in_map_iff.
    intros [o [H1 H2]]. exact (Hnone o H2 H1).
Qed.

(** X14. The bounds of the year slider: for an indicator that has no row
    the computation fails; otherwise the two bounds are the least and the
    greatest year of the rows of the indicator, whatever their breakdown.
    Every indicator the select box offers has bounds. *)
Theorem year_bounds_spec (df : list observation) (selected_indicator : string) :
  match year_bounds df selected_indicator with
  | Ok (min_year, max_year) =>
      min_year <= max_year /\
      (forall o, In o df -> gho_display o = selected_indicator ->
         min_year <= year o <= max_year) /\
      (exists o, In o df /\ gho_display o = selected_indicator /\ year o = min_year) /\
      (exists o, In o df /\ gho_display o = selected_indicator /\ year o = max_year)
  | Raise _ =>
      (forall o, In o df -> gho_display o <> selected_indicator) /\
      ~ In selected_indicator (indicator_names df)
  end.
Proof. exact (year_bounds_cases df selected_indicator). Qed.


(** ** The first view of an indicator *)

(** X16. For an indicator the select box offers, the full range of its
    years and the all-breakdowns entry always give data: the aggregated
    frame is not empty and the summary runs from the lower bound of the
    slider to the upper one, each as read back from the frame, where the
    years are held as floats, so the bounds themselves when they are under
    2^53 in size.  With a breakdown the select box offers in place of the
    all-breakdowns entry the frame is not empty either. *)
Theorem first_view_has_data
    (mean : list float -> float) (df : list observation) (selected_indicator : string) :
  In selected_indicator (indicator_names df) ->
  exists min_year max_year t,
    year_bounds df selected_indicator = Ok (min_year, max_year) /\
    classify_trend
      (df_yearly mean df selected_indicator ALL_BREAKDOWNS (min_year, max_year))
    = Some t /\
    start_year t = year_of_row min_year /\ end_year t = year_of_row max_year /\
    (- 2 ^ 53 < min_year -> max_year < 2 ^ 53 ->
     start_year t = min_year /\ end_year t = max_year) /\
    forall b, In b (breakdown_options df selected_indicator) ->
      df_yearly mean df selected_indicator b (min_year, max_year) <> [].
Proof.
  intros Hname. unfold indicator_names in Hname.
  rewrite py_sorted_in, unique_in, in_map_iff in Hname.
  destruct Hname as [o0 [Hind0 Hin0]].
  destruct (year_bounds_ok df selected_indicator o0 Hin0 Hind0)
    as [lo [hi [E [Hall [[olo [Hlo1 [Hlo2 Hlo3]]] [ohi [Hhi1 [Hhi2 Hhi3]]]]]]]].
  exists lo, hi.
  assert (Hrows : forall o brk, In o df -> gho_display o = selected_indicator ->
            (brk = ALL_BREAKDOWNS \/ breakdown o = brk) ->
            In o (apply_filters df selected_indicator brk (lo, hi))).
  { intros o brk Hin Hind Hb. rewrite apply_filters_filter, filter_In, selectedb_spec.
    split; [exact Hin|]. split; [exact Hind|]. split; [|exact Hb].
    apply (Hall o Hin Hind). }
  assert (Hne : forall o brk, In o df -> gho_display o = selected_indicator ->
            (brk = ALL_BREAKDOWNS \/ breakdown o = brk) ->
            df_yearly mean df selected_indicator brk (lo, hi) <> []).
  { intros o brk Hin Hind Hb Hempty.
    destruct (df_yearly_covers mean df selected_indicator brk (lo, hi) o
                (Hrows o brk Hin Hind Hb)) as [p [Hp _]].
    rewrite Hempty in Hp. exact Hp. }
  destruct (df_yearly mean df selected_indicator ALL_BREAKDOWNS (lo, hi))
    as [|p ps] eqn:Eout.
  { exfalso. apply (Hne olo ALL_BREAKDOWNS Hlo1 Hlo2); [left; reflexivity | exact Eout]. }
  destruct (df_yearly_ends mean df _ _ _ p ps Eout)
    as [Hspan [[o1 [Hin1 Hy1]] [[o2 [Hin2 Hy2]] [Hrlo Hrhi]]]].
  cbn [fst snd] in Hrlo, Hrhi.
  assert (Hfirst : yp_year p = lo).
  { pose proof (Hspan olo (Hrows olo ALL_BREAKDOWNS Hlo1 Hlo2 (or_introl eq_refl))).
    lia. }
  assert (Hlast : yp_year (last ps p) = hi).
  { pose proof (Hspan ohi (Hrows ohi ALL_BREAKDOWNS Hhi1 Hhi2 (or_introl eq_refl))).
    lia. }
  assert (Hlohi : lo <= hi).
  { pose proof (Hspan o1 Hin1). lia. }
  rewrite classify_trend_cons. cbv zeta. eexists. split; [exact E|].
  split; [reflexivity|]. cbn [start_year end_year]. rewrite Hfirst, Hlast.
  split; [reflexivity|]. split; [reflexivity|]. split.
  - intros Hmin Hmax. split; apply year_of_row_exact; lia.
  - intros b Hb. unfold breakdown_options in Hb.
    rewrite py_sorted_in, unique_in, in_map_iff in Hb.
    destruct Hb as [o [Hbo Hino]]. apply df_ind_all_in in Hino as [Hino Hindo].
    apply (Hne o b Hino Hindo). right. exact Hbo.
Qed.

Lemma first_view_has_data_witness :
  In "Under-five mortality rate" (indicator_names [obs_2015_f; obs_2010; obs_2015_m]) /\
  exists min_year max_year t,
    year_bounds [obs_2015_f; obs_2010; obs_2015_m] "Under-five mortality rate"
    = Ok (min_year, max_year) /\
    classify_trend
      (df_yearly group_mean [obs_2015_f; obs_2010; obs_2015_m]
         "Under-five mortality rate" ALL_BREAKDOWNS (min_year, max_year))
    = Some t /\
    start_year t = year_of_row min_year /\ end_year t = year_of_row max_year /\
    (- 2 ^ 53 < min_year -> max_year < 2 ^ 53 ->
     start_year t = min_year /\ end_year t = max_year) /\
    forall b, In b (breakdown_options [obs_2015_f; obs_2010; obs_2015_m]
                      "Under-five mortality rate") ->
      df_yearly group_mean [obs_2015_f; obs_2010; obs_2015_m]
        "Under-five mortality rate" b (min_year, max_year) <> [].
Proof.
  split; [left; reflexivity|].
  apply (first_view_has_data group_mean [obs_2015_f; obs_2010; obs_2015_m]
           "Under-five mortality rate").
  left. reflexivity.
Defined.

(** ** The reset button *)

Lemma ss_get_del (k k' : string) (ss : session_state) :
  ss_get k (ss_del k' ss) = if String.eqb k k' then None else ss_get k ss.
Proof.
  unfold ss_del. induction ss as [|[k0 v] ss IH]; simpl.
  - destruct (String.eqb k k'); reflexivity.
  - destruct (String.eqb_spec k' k0) as [->|Hne]; simpl.
    + rewrite IH. destruct (String.eqb_spec k k0) as [->|Hk]; reflexivity.
    + rewrite IH. destruct (String.eqb_spec k k0) as [->|Hk]; [|reflexivity].
      destruct (String.eqb_spec k0 k') as [E|_]; [congruence | reflexivity].
Qed.

(** X17. After the reset button the three filter keys are gone from the
    session and every other key keeps its value, so the breakdown box
    starts on the all-breakdowns entry and the slider on the full span of
    years, whatever was stored before. *)
Theorem reset_filters_spec (ss : session_state) :
  ss_get "indicator" (reset_filters ss) = None /\
  ss_get "breakdown" (reset_filters ss) = None /\
  ss_get "year_range" (reset_filters ss) = None /\
  (forall k, k <> "indicator" -> k <> "breakdown" -> k <> "year_range" ->
     ss_get k (reset_filters ss) = ss_get k ss) /\
  (forall options, default_breakdown_index (reset_filters ss) options = Ok O) /\
  (forall min_year max_year,
     slider_default min_year max_year (reset_filters ss) = Ok (min_year, max_year)).
Proof.
  assert (H1 : ss_get "indicator" (reset_filters ss) = None).
  { unfold reset_filters. rewrite !ss_get_del. reflexivity. }
  assert (H2 : ss_get "breakdown" (reset_filters ss) = None).
  { unfold reset_filters. rewrite !ss_get_del. reflexivity. }
  assert (H3 : ss_get "year_range" (reset_filters ss) = None).
  { unfold reset_filters. rewrite !ss_get_del. reflexivity. }
  split; [exact H1|]. split; [exact H2|]. split; [exact H3|]. split; [|split].
  - intros k Ha Hb Hc. unfold reset_filters. rewrite !ss_get_del.
    destruct (String.eqb_spec k "year_range") as [E|_]; [contradiction|].
    destruct (String.eqb_spec k "breakdown") as [E|_]; [contradiction|].
    destruct (String.eqb_spec k "indicator") as [E|_]; [contradiction|].
    reflexivity.
  - intros options. unfold default_breakdown_index. rewrite H2. reflexivity.
  - intros lo hi. unfold slider_default. rewrite H3. reflexivity.
Qed.

(** ** Aggregation and the year range *)

Lemma group_get_lt_head (k k0 : Z) (vs : list float) (rest : list (Z * list float)) :
  StronglySorted Z.lt (map fst ((k0, vs) :: rest)) -> k < k0 ->
  group_get k ((k0, vs) :: rest) = None.
Proof.
  intros Hs Hlt. apply group_get_not_in. simpl. intros [E|Hin]; [lia|].
  simpl in Hs. apply StronglySorted_inv in Hs as [_ Hall].
  rewrite Forall_forall in Hall. specialize (Hall k Hin). lia.
Qed.

(** Two lists of groups with ascending keys and the same lookups are the
    same list. *)
Lemma groups_ext (g1 g2 : list (Z * list float)) :
  StronglySorted Z.lt (map fst g1) -> StronglySorted Z.lt (map fst g2) ->
  (forall k, group_get k g1 = group_get k g2) -> g1 = g2.
Proof.
  revert g2. induction g1 as [|[k1 v1] t1 IH]; intros [|[k2 v2] t2] Hs1 Hs2 Hget.
  - reflexivity.
  - specialize (Hget k2). simpl in Hget. rewrite Z.eqb_refl in Hget. discriminate Hget.
  - specialize (Hget k1). simpl in Hget. rewrite Z.eqb_refl in Hget. discriminate Hget.
  - assert (Hk : k1 = k2).
    { destruct (Z.lt_trichotomy k1 k2) as [Hlt|[E|Hgt]]; [|exact E|].
      - pose proof (Hget k1) as H. rewrite (group_get_lt_head k1 k2 v2 t2 Hs2 Hlt) in H.
        simpl in H. rewrite Z.eqb_refl in H. discriminate H.
      - pose proof (Hget k2) as H. rewrite (group_get_lt_head k2 k1 v1 t1 Hs1 Hgt) in H.
        simpl in H. rewrite Z.eqb_refl in H. discriminate H. }
    subst k2.
    assert (Hv : v1 = v2).
    { specialize (Hget k1). simpl in Hget. rewrite Z.eqb_refl in Hget. congruence. }
    subst v2. f_equal.
    pose proof Hs1 as Hs1'. pose proof Hs2 as Hs2'.
    simpl in Hs1', Hs2'.
    apply StronglySorted_inv in Hs1' as [Ht1 Hall1].
    apply StronglySorted_inv in Hs2' as [Ht2 Hall2].
    apply IH; [exact Ht1 | exact Ht2 |].
    intros k. destruct (Z.eqb_spec k k1) as [->|Hne].
    + rewrite !group_get_not_in; [reflexivity| |].
      * intros Hin. rewrite Forall_forall in Hall2. specialize (Hall2 _ Hin). lia.
      * intros Hin. rewrite Forall_forall in Hall1. specialize (Hall1 _ Hin). lia.
    + specialize (Hget k). simpl in Hget.
      destruct (Z.eqb_spec k k1) as [E|_]; [contradiction|]. exact Hget.
Qed.

Lemma group_get_filter (fy : Z -> bool) (k : Z) (g : list (Z * list float)) :
  group_get k (filter (fun grp => fy (fst grp)) g) =
  if fy k then group_get k g else None.
Proof.
  induction g as [|[k0 vs] rest IH]; simpl.
  - destruct (fy k); reflexivity.
  - destruct (fy k0) eqn:E0; simpl.
    + destruct (Z.eqb_spec k k0) as [->|Hne].
      * rewrite E0. reflexivity.
      * exact IH.
    + rewrite IH. destruct (Z.eqb_spec k k0) as [->|Hne]; [|reflexivity].
      rewrite E0. reflexivity.
Qed.

Lemma keys_filter_sorted (fy : Z -> bool) (g : list (Z * list float)) :
  StronglySorted Z.lt (map fst g) ->
  StronglySorted Z.lt (map fst (filter (fun grp => fy (fst grp)) g)).
Proof.
  induction g as [|[k0 vs] rest IH]; simpl; intros Hs; [constructor|].
  apply StronglySorted_inv in Hs as [Hrest Hall].
  destruct (fy k0); simpl; [|apply IH; exact Hrest].
  constructor; [apply IH; exact Hrest|].
  rewrite Forall_forall in *. intros k Hk. apply Hall.
  apply in_map_iff in Hk as [grp [<- Hin]]. apply filter_In in Hin as [Hin _].
  apply in_map. exact Hin.
Qed.

Lemma values_of_year_filter (fy : Z -> bool) (k : Z) (rows : list observation) :
  values_of_year k (filter (fun o => fy (year o)) rows) =
  if fy k then values_of_year k rows else [].
Proof.
  unfold values_of_year. induction rows as [|o rows IH]; simpl.
  - destruct (fy k); reflexivity.
  - destruct (fy (year o)) eqn:Ef; simpl.
    + destruct (Z.eqb_spec (year o) k) as [E|Hne]; simpl.
      * rewrite IH. rewrite <- E, Ef. reflexivity.
      * exact IH.
    + rewrite IH. destruct (Z.eqb_spec (year o) k) as [E|Hne]; [|reflexivity].
      rewrite <- E, Ef. reflexivity.
Qed.

Lemma groupby_year_filter (fy : Z -> bool) (rows : list observation) :
  groupby_year (filter (fun o => fy (year o)) rows) =
  filter (fun grp => fy (fst grp)) (groupby_year rows).
Proof.
  destruct (groupby_year_groups rows) as [Hs Hget].
  destruct (groupby_year_groups (filter (fun o => fy (year o)) rows)) as [Hs' Hget'].
  apply groups_ext; [exact Hs' | apply keys_filter_sorted; exact Hs |].
  intros k. rewrite Hget', group_get_filter, Hget, values_of_year_filter.
  destruct (fy k); reflexivity.
Qed.

Lemma aggregate_filter (mean : list float -> float) (fy : Z -> bool)
    (rows : list observation) :
  aggregate mean (filter (fun o => fy (year o)) rows) =
  filter (fun p => fy (yp_year p)) (aggregate mean rows).
Proof.
  rewrite !aggregate_groups, groupby_year_filter.
  induction (groupby_year rows) as [|[k vs] g IH]; [reflexivity|].
  simpl. destruct (fy k); simpl; rewrite IH; reflexivity.
Qed.

(** X18. Narrowing the year range only removes points: the aggregated frame
    of a range inside another is the frame of the wider range without the
    points outside the narrow one, each remaining point with the value it
    had. *)
Theorem df_yearly_narrow_range
    (mean : list float -> float) (df : list observation)
    (selected_indicator selected_breakdown : string) (lo hi lo' hi' : Z) :
  lo <= lo' -> hi' <= hi ->
  df_yearly mean df selected_indicator selected_breakdown (lo', hi') =
  filter (fun p => (lo' <=? yp_year p) && (yp_year p <=? hi'))%bool
         (df_yearly mean df selected_indicator selected_breakdown (lo, hi)).
Proof.
  intros Hlo Hhi. unfold df_yearly.
  rewrite <- (aggregate_filter mean (fun y => (lo' <=? y) && (y <=? hi'))%bool).
  f_equal. rewrite !apply_filters_filter, filter_filter_andb.
  apply filter_ext. intros o. unfold selectedb. cbn [fst snd].
  destruct (String.eqb (gho_display o) selected_indicator); cbn [andb]; [|reflexivity].
  destruct (String.eqb selected_breakdown ALL_BREAKDOWNS
            || String.eqb (breakdown o) selected_breakdown)%bool;
    rewrite ?Bool.andb_true_r, ?Bool.andb_false_r; cbn [andb].
  - destruct (Z.leb_spec lo' (year o)), (Z.leb_spec (year o) hi'),
      (Z.leb_spec lo (year o)), (Z.leb_spec (year o) hi);
      cbn [andb]; try reflexivity; lia.
  - destruct ((lo <=? year o) && (year o <=? hi))%bool; reflexivity.
Qed.

Lemma df_yearly_narrow_range_witness :
  2000 <= 2012 /\ 2020 <= 2020 /\
  df_yearly group_mean [obs_2015_f; obs_2010; obs_2015_m]
    "Under-five mortality rate" ALL_BREAKDOWNS (2012, 2020) =
  filter (fun p => (2012 <=? yp_year p) && (yp_year p <=? 2020))%bool
         (df_yearly group_mean [obs_2015_f; obs_2010; obs_2015_m]
            "Under-five mortality rate" ALL_BREAKDOWNS (2000, 2020)).
Proof.
  split; [lia|]. split; [lia|].
  apply (df_yearly_narrow_range group_mean [obs_2015_f; obs_2010; obs_2015_m]
           "Under-five mortality rate" ALL_BREAKDOWNS 2000 2020 2012 2020); lia.
Defined.

(** ** Aggregation: what each row goes into *)

Lemma group_add_total (y : Z) (v : float) (g : list (Z * list float)) :
  list_sum (map (fun grp => List.length (snd grp)) (group_add y v g))
  = S (list_sum (map (fun grp => List.length (snd grp)) g)).
Proof.
  induction g as [|[k vs] rest IH]; [reflexivity|].
  simpl. destruct (y <? k); [reflexivity|].
  destruct (y =? k); simpl.
  - rewrite length_app. simpl. lia.
  - rewrite IH. lia.
Qed.

Lemma groupby_year_total (rows : list observation) :
  list_sum (map (fun grp => List.length (snd grp)) (groupby_year rows))
  = List.length rows.
Proof.
  unfold groupby_year.
  assert (H : forall g,
    list_sum (map (fun grp => List.length (snd grp))
                  (fold_left (fun groups o => group_add (year o) (value o) groups) rows g))
    = (list_sum (map (fun grp => List.length (snd grp)) g) + List.length rows)%nat).
  { induction rows as [|o rows IH]; intros g; simpl; [lia|].
    rewrite IH, group_add_total. lia. }
  rewrite H. reflexivity.
Qed.

(** X19. Every filtered row goes into the mean of exactly one point: the
    numbers of values behind the points of the aggregated frame add up to
    the number of filtered rows, and the sort after the grouping leaves the
    grouped frame as it is. *)
Theorem aggregate_counts_every_row
    (mean : list float -> float) (rows : list observation) :
  list_sum (map (fun p => List.length (values_of_year (yp_year p) rows))
                (aggregate mean rows))
  = List.length rows /\
  aggregate mean rows
  = map (fun g => mkPoint (fst g) (mean (snd g))) (groupby_year rows).
Proof.
  split; [|apply aggregate_groups].
  rewrite aggregate_groups, map_map. cbn [yp_year].
  rewrite <- (groupby_year_total rows). f_equal.
  apply map_ext_in. intros [k vs] Hin. cbn [fst snd].
  destruct (groupby_year_groups rows) as [Hs Hget].
  pose proof (group_get_in _ _ _ Hs Hin) as Hk. rewrite Hget in Hk.
  destruct (values_of_year k rows) as [|x l]; [discriminate Hk|].
  injection Hk as <-. reflexivity.
Qed.

(** ** The first tab never fails *)

Lemma show_selection_empty
    (fmt : formatters) (mean : list float -> float) (df : list observation)
    (selected_indicator selected_breakdown : string) (year_range : Z * Z) :
  df_yearly mean df selected_indicator selected_breakdown year_range = [] ->
  show_selection fmt mean df selected_indicator selected_breakdown year_range fresh
  = (mkApp [st_warning NO_DATA] None None, Stopped).
Proof. intros H. unfold show_selection. rewrite H. reflexivity. Qed.

(** X20. The script from the filters to the end of the first tab never
    ends with an exception.  It stops on the no-data warning exactly when no
    row of the frame passes the three filters; in every other case it runs
    to its end, with the summary and the narrative assigned and without the
    warning. *)
Theorem show_selection_never_raises
    (fmt : formatters) (mean : list float -> float) (df : list observation)
    (selected_indicator selected_breakdown : string) (year_range : Z * Z) :
  let run := show_selection fmt mean df selected_indicator selected_breakdown
               year_range fresh in
  (snd run = Stopped \/ snd run = Done tt) /\
  (snd run = Stopped <->
   forall o, In o df ->
     ~ selected selected_indicator selected_breakdown year_range o) /\
  (snd run = Stopped -> fst run = mkApp [st_warning NO_DATA] None None) /\
  (snd run = Done tt ->
   ~ In (st_warning NO_DATA) (page (fst run)) /\
   var_trend_info (fst run) <> None /\ var_narrative (fst run) <> None).
Proof.
  intros run.
  assert (Hrows : df_yearly mean df selected_indicator selected_breakdown year_range = []
                  <-> forall o, In o df ->
                        ~ selected selected_indicator selected_breakdown year_range o).
  { split.
    - intros Hempty o Hin Hsel.
      assert (Hr : In o (apply_filters df selected_indicator selected_breakdown year_range)).
      { rewrite apply_filters_filter, filter_In, selectedb_spec. auto. }
      destruct (df_yearly_covers mean df _ _ _ o Hr) as [p [Hp _]].
      rewrite Hempty in Hp. exact Hp.
    - intros Hnone.
      destruct (df_yearly mean df selected_indicator selected_breakdown year_range)
        as [|p ps] eqn:E; [reflexivity|]. exfalso.
      destruct (df_yearly_point_year mean df selected_indicator selected_breakdown
                  year_range p) as [o [Hin _]]; [rewrite E; left; reflexivity|].
      rewrite apply_filters_filter, filter_In, selectedb_spec in Hin.
      destruct Hin as [Hin Hsel]. exact (Hnone o Hin Hsel). }
  destruct (df_yearly mean df selected_indicator selected_breakdown year_range)
    as [|p ps] eqn:E.
  - pose proof (show_selection_empty fmt mean df _ _ _ E) as Hrun. fold run in Hrun.
    rewrite Hrun. cbn [fst snd].
    split; [left; reflexivity|]. split; [|split].
    + split; [intros _; apply Hrows; reflexivity | reflexivity].
    + reflexivity.
    + discriminate.
  - assert (Hne : df_yearly mean df selected_indicator selected_breakdown year_range <> [])
      by (rewrite E; discriminate).
    destruct (show_selection_with_data fmt mean df _ _ _ Hne)
      as [s' [t [Hrun [_ [Ht [Hn Hw]]]]]].
    fold run in Hrun. rewrite Hrun. cbn [fst snd].
    split; [right; reflexivity|]. split; [|split].
    + split; [discriminate|]. intros Hnone. apply Hrows in Hnone. discriminate Hnone.
    + discriminate.
    + intros _. split; [exact Hw|]. rewrite Ht, Hn. split; discriminate.
Qed.

(** ** The slider bounds and the points shown *)

(** X21. Whatever breakdown and year range are selected for an indicator,
    every point of the aggregated frame has a year within the bounds of the
    slider, and a year that the all-breakdowns frame of the same range has
    too: choosing a breakdown never adds a year. *)
Theorem df_yearly_within_bounds
    (mean : list float -> float) (df : list observation)
    (selected_indicator selected_breakdown : string) (year_range : Z * Z)
    (p : yearly_point) :
  In p (df_yearly mean df selected_indicator selected_breakdown year_range) ->
  (exists min_year max_year,
     year_bounds df selected_indicator = Ok (min_year, max_year) /\
     min_year <= yp_year p <= max_year) /\
  In (yp_year p)
     (map yp_year (df_yearly mean df selected_indicator ALL_BREAKDOWNS year_range)).
Proof.
  intros Hp.
  destruct (df_yearly_point_year mean df _ _ _ p Hp) as [o [Hin Hy]].
  rewrite apply_filters_filter, filter_In, selectedb_spec in Hin.
  destruct Hin as [Hin [Hind [Hrange _]]].
  split.
  - destruct (year_bounds_ok df selected_indicator o Hin Hind)
      as [lo [hi [E [Hall _]]]].
    exists lo, hi. split; [exact E|]. rewrite <- Hy. apply (Hall o Hin Hind).
  - assert (Hr : In o (apply_filters df selected_indicator ALL_BREAKDOWNS year_range)).
    { rewrite apply_filters_filter, filter_In, selectedb_spec.
      split; [exact Hin|]. split; [exact Hind|]. split; [exact Hrange|].
      left. reflexivity. }
    destruct (df_yearly_covers mean df _ _ _ o Hr) as [q [Hq Hqy]].
    rewrite <- Hy, <- Hqy. apply in_map. exact Hq.
Qed.

Lemma df_yearly_within_bounds_witness :
  In (mkPoint 2015 20%float)
     (df_yearly group_mean [obs_2015_f; obs_2010; obs_2015_m]
        "Under-five mortality rate" "SEX – Male" (2000, 2020)) /\
  (exists min_year max_year,
     year_bounds [obs_2015_f; obs_2010; obs_2015_m] "Under-five mortality rate"
     = Ok (min_year, max_year) /\
     min_year <= 2015 <= max_year) /\
  In 2015
     (map yp_year (df_yearly group_mean [obs_2015_f; obs_2010; obs_2015_m]
                     "Under-five mortality rate" ALL_BREAKDOWNS (2000, 2020))).
Proof.
  split; [left; reflexivity|].
  apply (df_yearly_within_bounds group_mean [obs_2015_f; obs_2010; obs_2015_m]
           "Under-five mortality rate" "SEX – Male" (2000, 2020)
           (mkPoint 2015 20%float)).
  left. reflexivity.
Defined.

Lemma sorted_constant_years (y : Z) (l : list yearly_point) :
  StronglySorted Z.lt (map yp_year l) ->
  (forall p, In p l -> yp_year p = y) ->
  (List.length l <= 1)%nat.
Proof.
  destruct l as [|p [|q l]]; simpl; intros Hs Hall; try lia.
  apply StronglySorted_inv in Hs as [_ Hlt]. apply Forall_inv in Hlt.
  pose proof (Hall p (or_introl eq_refl)).
  pose proof (Hall q (or_intror (or_introl eq_refl))). lia.
Qed.

(** X22. An indicator whose rows all have one year, the case in which the
    sidebar shows no slider: the range is that single year, the
    all-breakdowns frame has exactly one point, with the mean, as pandas
    computes it, of all values of the indicator, and the metrics show that
    year as read back from the frame, the year itself when it is under 2^53
    in size, with the change 0.0 and no percent change. *)
Theorem single_year_view
    (df : list observation) (selected_indicator : string) (y : Z) :
  year_bounds df selected_indicator = Ok (y, y) ->
  let df_yearly :=
    df_yearly group_mean df selected_indicator ALL_BREAKDOWNS (y, y) in
  let mean_value := group_mean (map value (df_ind_all df selected_indicator)) in
  df_yearly = [mkPoint y mean_value] /\
  kpis df_yearly = Some (mkKpi (year_of_row y) mean_value (Some f0) None) /\
  (Z.abs y < 2 ^ 53 -> kpis df_yearly = Some (mkKpi y mean_value (Some f0) None)).
Proof.
  intros Hb frame v.
  assert (Hframe : frame = [mkPoint y v]).
  { pose proof (year_bounds_cases df selected_indicator) as Hspec. rewrite Hb in Hspec.
    destruct Hspec as [_ [Hall [[o0 [Hin0 [Hind0 Hy0]]] _]]].
    assert (Hrows : apply_filters df selected_indicator ALL_BREAKDOWNS (y, y)
                    = df_ind_all df selected_indicator).
    { rewrite apply_filters_filter. unfold df_ind_all. apply filter_ext_in.
      intros o Hin. unfold selectedb. cbn [fst snd].
      rewrite String.eqb_refl, Bool.orb_true_l, Bool.andb_true_r.
      destruct (String.eqb_spec (gho_display o) selected_indicator) as [E|Hne];
        [|reflexivity].
      pose proof (Hall o Hin E) as Hyo. cbn [andb].
      destruct (Z.leb_spec y (year o)), (Z.leb_spec (year o) y);
        try reflexivity; lia. }
    assert (Hyears : forall p, In p frame -> yp_year p = y).
    { intros p Hp. destruct (df_yearly_point_year group_mean df _ _ _ p Hp)
        as [o [Hin Hy]].
      pose proof (rows_in_range df _ _ _ o Hin) as Hr. cbn [fst snd] in Hr. lia. }
    pose proof (sorted_constant_years y frame
                  (df_yearly_sorted group_mean df _ _ _) Hyears) as Hlen.
    assert (Hr0 : In o0 (apply_filters df selected_indicator ALL_BREAKDOWNS (y, y))).
    { rewrite Hrows. apply df_ind_all_in. auto. }
    destruct (df_yearly_covers group_mean df _ _ _ o0 Hr0) as [p [Hp Hpy]].
    fold frame in Hp.
    destruct frame as [|q [|q' l]] eqn:Ef; [destruct Hp| |simpl in Hlen; lia].
    destruct Hp as [->|[]].
    assert (Hin : In p (df_yearly group_mean df selected_indicator ALL_BREAKDOWNS
                          (y, y))).
    { fold frame. rewrite Ef. left. reflexivity. }
    destruct (aggregate_point group_mean _ _ Hin) as [_ Hv].
    rewrite Hrows in Hv.
    assert (Hvals : values_of_year (yp_year p) (df_ind_all df selected_indicator)
                    = map value (df_ind_all df selected_indicator)).
    { unfold values_of_year. f_equal.
      rewrite (Hyears p (or_introl eq_refl)).
      apply forallb_filter_id. apply forallb_forall. intros o Ho.
      apply df_ind_all_in in Ho as [Ho1 Ho2]. pose proof (Hall o Ho1 Ho2).
      apply Z.eqb_eq. lia. }
    rewrite Hvals in Hv.
    pose proof (Hyears p (or_introl eq_refl)) as Hpy0.
    destruct p as [py pv]. cbn [yp_year yp_value] in Hv, Hpy0.
    rewrite Hv, Hpy0. reflexivity. }
  split; [exact Hframe|]. rewrite Hframe.
  split; [reflexivity|].
  intros Hsmall. rewrite <- (year_of_row_exact y Hsmall) at 2. reflexivity.
Qed.

Lemma single_year_view_witness :
  year_bounds [obs_2015_f; obs_2015_m] "Under-five mortality rate" = Ok (2015, 2015) /\
  let df_yearly :=
    df_yearly group_mean [obs_2015_f; obs_2015_m] "Under-five mortality rate"
      ALL_BREAKDOWNS (2015, 2015) in
  let mean_value := group_mean (map value (df_ind_all [obs_2015_f; obs_2015_m]
                                        "Under-five mortality rate")) in
  df_yearly = [mkPoint 2015 mean_value] /\
  kpis df_yearly = Some (mkKpi (year_of_row 2015) mean_value (Some f0) None) /\
  (Z.abs 2015 < 2 ^ 53 -> kpis df_yearly = Some (mkKpi 2015 mean_value (Some f0) None)).
Proof.
  split; [reflexivity|].
  apply (single_year_view [obs_2015_f; obs_2015_m] "Under-five mortality rate" 2015).
  reflexivity.
Defined.

(** The single year of an indicator with the values 10 and 20: one point of
    value 15. *)
Example single_year_view_values :
  df_yearly group_mean [obs_2015_f; obs_2015_m] "Under-five mortality rate"
    ALL_BREAKDOWNS (2015, 2015) = [mkPoint 2015 15%float] /\
  kpis [mkPoint 2015 15%float] = Some (mkKpi 2015 15%float (Some f0) None).
Proof. split; reflexivity. Qed.
